(** * prompt-generator: the Streamlit script [app.py]

    The script is a top-to-bottom Streamlit page: it reads five widget
    values, renders a fixed meta-prompt template, posts it to one of three
    chat-completion endpoints and shows the answer.  The development embeds
    the script as a program in a small monad of runs: a computation yields,
    in order, everything it does to the outside world (the widgets it
    draws and the HTTP exchanges it makes) and ends with a value, an
    exception or a halt. *)

From Stdlib Require Import String Ascii List ZArith Bool Lia.
Import ListNotations.
Local Open Scope list_scope.
Local Open Scope string_scope.

Set Implicit Arguments.
Set Warnings "-register-all".

(** ** Python values and exceptions *)

(** Values that [json.loads] produces and that the script builds for its
    request bodies.  A [dict] keeps its bindings as an association list;
    subscripting returns the first binding of the key. *)
Inductive pyval : Type :=
| PyNone
| PyBool (b : bool)
| PyInt (z : Z)
| PyStr (s : string)
| PyList (l : list pyval)
| PyDict (d : list (string * pyval)).

(** What [requests.post] hands back: the status line, the raw body and the
    outcome of [response.json()] on it ([None] when the body is not JSON). *)
Record Response : Type := mkResponse {
  status_code : Z;
  text : string;
  json : option pyval
}.

Record Request : Type := mkRequest {
  url : string;
  headers : list (string * string);
  data : pyval
}.

(** The exception classes a run can meet.  All of them derive from
    Python's [Exception]; [HTTPError] carries the response it was raised
    for, [TransportError] stands for whatever [requests.post] itself
    raises, [StreamlitAPIException] is what a widget call raises on an
    argument it cannot take. *)
Inductive exn : Type :=
| KeyError (key : pyval)
| IndexError
| TypeError
| ValueError (msg : string)
| JSONDecodeError
| HTTPError (r : Response)
| TransportError (msg : string)
| SecretError (msg : string)
| StreamlitAPIException (msg : string).

Inductive Result (A : Type) : Type :=
| Ok (a : A)
| Raise (e : exn).
Arguments Raise {A} e.

(** ** Strings *)

Definition nl : string := String "010"%char EmptyString.
Definition dq : string := String "034"%char EmptyString.

(** Python's truth value of a [str]: only the empty string is false. *)
Definition truthy (s : string) : bool :=
  match s with
  | EmptyString => false
  | String _ _ => true
  end.

(** [sub in s] on strings. *)
Fixpoint str_in (sub s : string) : bool :=
  String.prefix sub s ||
  match s with
  | EmptyString => false
  | String _ s' => str_in sub s'
  end.

(** [nl.join(lines)]; used to write multi-line literals line by line. *)
Fixpoint join_lines (lines : list string) : string :=
  match lines with
  | [] => ""
  | [l] => l
  | l :: rest => l ++ nl ++ join_lines rest
  end.

Fixpoint assoc {A : Type} (k : string) (d : list (string * A)) : option A :=
  match d with
  | [] => None
  | (k', v) :: d' => if String.eqb k k' then Some v else assoc k d'
  end.

(** ** [str.format] with keyword arguments

    The fragment of the format mini-language the template can exercise:
    literal text, the escapes [{{] and [}}], and plain named fields
    [{name}].  A lone [}] and an unterminated field are [ValueError]s, an
    unknown name is a [KeyError]. *)

Fixpoint read_field (s : string) (name_rev : string) : option (string * string) :=
  match s with
  | EmptyString => None
  | String c s' =>
      if Ascii.eqb c "}"%char then Some (name_rev, s')
      else read_field s' (String c name_rev)
  end.

Fixpoint rev_string (s acc : string) : string :=
  match s with
  | EmptyString => acc
  | String c s' => rev_string s' (String c acc)
  end.

Definition map_result {A B : Type} (f : A -> B) (r : Result A) : Result B :=
  match r with
  | Ok a => Ok (f a)
  | Raise e => Raise e
  end.

(** [fuel] bounds the number of template positions visited; the length of
    the template plus one is always enough. *)
Fixpoint format_aux (fuel : nat) (t : string) (kwargs : list (string * string))
  : Result string :=
  match fuel with
  | O => Raise (ValueError "format: out of fuel")
  | S fuel' =>
      match t with
      | EmptyString => Ok EmptyString
      | String c t' =>
          if Ascii.eqb c "{"%char then
            match t' with
            | String c' t'' =>
                if Ascii.eqb c' "{"%char then
                  map_result (String "{"%char) (format_aux fuel' t'' kwargs)
                else
                  match read_field t' EmptyString with
                  | None => Raise (ValueError "expected '}' before end of string")
                  | Some (name_rev, rest) =>
                      match assoc (rev_string name_rev EmptyString) kwargs with
                      | None => Raise (KeyError (PyStr (rev_string name_rev EmptyString)))
                      | Some v =>
                          map_result (fun out => v ++ out) (format_aux fuel' rest kwargs)
                      end
                  end
            | EmptyString => Raise (ValueError "Single '{' encountered in format string")
            end
          else if Ascii.eqb c "}"%char then
            match t' with
            | String c' t'' =>
                if Ascii.eqb c' "}"%char then
                  map_result (String "}"%char) (format_aux fuel' t'' kwargs)
                else Raise (ValueError "Single '}' encountered in format string")
            | EmptyString => Raise (ValueError "Single '}' encountered in format string")
            end
          else map_result (String c) (format_aux fuel' t' kwargs)
      end
  end.

Definition format (t : string) (kwargs : list (string * string)) : Result string :=
  format_aux (S (String.length t)) t kwargs.

(** ** META_PROMPT_TEMPLATE (app.py, lines 76-106)

    The triple-quoted literal opens with a line break and ends with one
    after the closing rule. *)
Definition META_PROMPT_TEMPLATE : string :=
  join_lines [
    "";
    "You are an Expert AI Prompt Engineer specializing in generating highly effective prompts for coding and development tasks.";
    "";
    "Your task is to create a detailed, structured prompt that I can use with any AI model to solve the following problem:";
    "";
    "**PROJECT IDEA:**";
    "{project_idea}";
    "";
    "**REQUIREMENTS:**";
    "{requirements}";
    "";
    "Please follow this exact structure for the output prompt:";
    "";
    "---";
    "**Role:** [Describe the expert role, e.g., " ++ dq
      ++ "Senior Full-Stack Developer with 10+ years of experience in React and Node.js" ++ dq ++ "]";
    "**Context:** [Briefly explain the project, tech stack, and constraints]";
    "**Task Instructions:** ";
    "1. [Step 1]";
    "2. [Step 2]";
    "...";
    "**Constraints:**";
    "- Must include [specific requirement 1]";
    "- Must avoid [specific restriction 1]";
    "...";
    "**Output Format:**";
    "- Provide complete, runnable code blocks.";
    "- Include error handling.";
    "- Add comments explaining key sections.";
    "- Do NOT use placeholders like " ++ dq ++ "// ..." ++ dq ++ ".";
    "---";
    ""
  ].

(** ** Subscripting, [raise_for_status] and [response.json()] *)

Definition nth_py {A : Type} (l : list A) (i : Z) : option A :=
  let n := Z.of_nat (List.length l) in
  let j := if (i <? 0)%Z then (i + n)%Z else i in
  if (j <? 0)%Z then None else nth_error l (Z.to_nat j).

Definition get_py (s : string) (i : Z) : option ascii :=
  let n := Z.of_nat (String.length s) in
  let j := if (i <? 0)%Z then (i + n)%Z else i in
  if (j <? 0)%Z then None else String.get (Z.to_nat j) s.

Definition index_of (k : pyval) : option Z :=
  match k with
  | PyInt z => Some z
  | PyBool b => Some (if b then 1 else 0)%Z
  | _ => None
  end.

(** [v[k]].  A decoded JSON object has only [str] keys, so any other
    hashable key is missing from it; a [list] or a [str] wants an integer
    and counts a negative one from the end; nothing else is
    subscriptable.  Indexing a [str] yields its one-character slice. *)
Definition getitem (v k : pyval) : Result pyval :=
  match v with
  | PyDict d =>
      match k with
      | PyStr key =>
          match assoc key d with
          | Some x => Ok x
          | None => Raise (KeyError k)
          end
      | PyList _ | PyDict _ => Raise TypeError
      | _ => Raise (KeyError k)
      end
  | PyList l =>
      match index_of k with
      | Some i =>
          match nth_py l i with
          | Some x => Ok x
          | None => Raise IndexError
          end
      | None => Raise TypeError
      end
  | PyStr s =>
      match index_of k with
      | Some i =>
          match get_py s i with
          | Some c => Ok (PyStr (String c EmptyString))
          | None => Raise IndexError
          end
      | None => Raise TypeError
      end
  | _ => Raise TypeError
  end.

(** [Response.raise_for_status] of the requests library: client (4xx) and
    server (5xx) statuses raise [HTTPError] with the response attached;
    every other status passes. *)
Definition raise_for_status (r : Response) : Result unit :=
  if ((400 <=? status_code r) && (status_code r <? 600))%Z
  then Raise (HTTPError r)
  else Ok tt.

Definition response_json (r : Response) : Result pyval :=
  match json r with
  | Some v => Ok v
  | None => Raise JSONDecodeError
  end.

(** ** The page and the network, as the run sees them *)

Inductive Container : Type :=
| Main
| Sidebar
| Column (i : nat).

Inductive Widget : Type :=
| W_set_page_config (page_title layout : string)
| W_title (body : string)
| W_markdown (body : string)
| W_header (body : string)
| W_subheader (body : string)
| W_selectbox (label : string) (options : list string)
| W_text_area (label placeholder : string) (height : Z)
| W_button (label : string)
| W_checkbox (label : string)
| W_columns (n : nat)
| W_spinner_enter (body : string)
| W_spinner_exit
| W_error (body : string)
| W_code (body : pyval) (language : string)
| W_download_button (label : string) (data : pyval) (file_name : string)
    (mime key : option string).

Inductive Event : Type :=
| Draw (c : Container) (w : Widget)
| HttpSend (rq : Request)
| HttpDone (r : Result Response).

Definition Log : Type := list Event.

(** The outside world of one run: the secret store, the remote ends
    ([post n rq] answers the request [rq] when [n] requests have already
    been sent in this run) and Python's [str] on exceptions. *)
Record World : Type := mkWorld {
  secrets : string -> Result string;
  post : nat -> Request -> Result Response;
  str_of_exn : exn -> string
}.

(** The widget values of one run. *)
Record Inputs : Type := mkInputs {
  in_model : string;
  in_project_idea : string;
  in_requirements : string;
  in_button : bool;
  in_compare : bool
}.

(** ** The monad of script runs

    A computation is started when [n] requests have already been sent in
    the run; it yields the events it adds to the run, in order, and ends
    with a value, with a raised exception, or halted by [st.stop()].
    Streamlit's stop signal is not an [Exception], so no
    [except Exception] clause catches it. *)
Inductive Outcome (A : Type) : Type :=
| Val (a : A)
| Exc (e : exn)
| Halt.
Arguments Exc {A} e.
Arguments Halt {A}.

Definition is_send (e : Event) : bool :=
  match e with
  | HttpSend _ => true
  | _ => false
  end.

Definition sends (log : Log) : nat := List.length (filter is_send log).

Definition M (A : Type) : Type := nat -> Outcome A * Log.

Definition ret {A : Type} (a : A) : M A := fun _ => (Val a, []).

Definition bind {A B : Type} (m : M A) (k : A -> M B) : M B :=
  fun n =>
    match m n with
    | (Val a, ev) => let (o, ev') := k a (sends ev + n) in (o, (ev ++ ev')%list)
    | (Exc e, ev) => (Exc e, ev)
    | (Halt, ev) => (Halt, ev)
    end.

Declare Scope script_scope.
Delimit Scope script_scope with script.
Notation "x <- m ;; k" := (bind m (fun x => k))
  (at level 61, m at next level, right associativity) : script_scope.
Notation "m ;; k" := (bind m (fun _ => k))
  (at level 61, right associativity) : script_scope.
Local Open Scope script_scope.

Definition lift {A : Type} (r : Result A) : M A :=
  fun _ =>
    match r with
    | Ok a => (Val a, [])
    | Raise e => (Exc e, [])
    end.

Definition emit (e : Event) : M unit := fun _ => (Val tt, [e]).

(** [try: m  except Exception as e: h e] *)
Definition try_except {A : Type} (m : M A) (h : exn -> M A) : M A :=
  fun n =>
    match m n with
    | (Exc e, ev) => let (o, ev') := h e (sends ev + n) in (o, (ev ++ ev')%list)
    | other => other
    end.

(** [with st.spinner(text): body]: the spinner is taken down however the
    body ends. *)
Definition with_spinner {A : Type} (body_text : string) (body : M A) : M A :=
  fun n =>
    let (o, ev) := body n in
    (o, (Draw Main (W_spinner_enter body_text) :: ev ++ [Draw Main W_spinner_exit])%list).

Definition st_stop {A : Type} : M A := fun _ => (Halt, []).

(** [requests.post(url, headers=headers, json=data)]: blocks until the
    exchange is over. *)
Definition requests_post (w : World) (rq : Request) : M Response :=
  fun n =>
    let r := post w n rq in
    (match r with
     | Ok resp => Val resp
     | Raise e => Exc e
     end, [HttpSend rq; HttpDone r]).

Definition st_secrets (w : World) (name : string) : M string := lift (secrets w name).

(** ** AI API clients (app.py, lines 26-70) *)

Definition user_message (prompt : string) : pyval :=
  PyList [PyDict [("role", PyStr "user"); ("content", PyStr prompt)]].

(** [call_claude] *)
Definition call_claude (w : World) (prompt : string) : M pyval :=
  key <- st_secrets w "ANTHROPIC_API_KEY" ;;
  response <- requests_post w
    {| url := "https://api.anthropic.com/v1/messages";
       headers := [("x-api-key", key); ("content-type", "application/json")];
       data := PyDict [("model", PyStr "claude-3-5-sonnet-20241022");
                       ("max_tokens", PyInt 1500);
                       ("messages", user_message prompt)] |} ;;
  lift (raise_for_status response) ;;
  body <- lift (response_json response) ;;
  content <- lift (getitem body (PyStr "content")) ;;
  first <- lift (getitem content (PyInt 0)) ;;
  lift (getitem first (PyStr "text")).

(** [call_gpt4o] *)
Definition call_gpt4o (w : World) (prompt : string) : M pyval :=
  key <- st_secrets w "OPENAI_API_KEY" ;;
  response <- requests_post w
    {| url := "https://api.openai.com/v1/chat/completions";
       headers := [("Authorization", "Bearer " ++ key);
                   ("Content-Type", "application/json")];
       data := PyDict [("model", PyStr "gpt-4o");
                       ("messages", user_message prompt)] |} ;;
  lift (raise_for_status response) ;;
  body <- lift (response_json response) ;;
  choices <- lift (getitem body (PyStr "choices")) ;;
  first <- lift (getitem choices (PyInt 0)) ;;
  message <- lift (getitem first (PyStr "message")) ;;
  lift (getitem message (PyStr "content")).

(** [call_deepseek] *)
Definition call_deepseek (w : World) (prompt : string) : M pyval :=
  key <- st_secrets w "DEEPSEEK_API_KEY" ;;
  response <- requests_post w
    {| url := "https://api.deepseek.com/v1/chat/completions";
       headers := [("Authorization", "Bearer " ++ key);
                   ("Content-Type", "application/json")];
       data := PyDict [("model", PyStr "deepseek-chat");
                       ("messages", user_message prompt)] |} ;;
  lift (raise_for_status response) ;;
  body <- lift (response_json response) ;;
  choices <- lift (getitem body (PyStr "choices")) ;;
  first <- lift (getitem choices (PyInt 0)) ;;
  message <- lift (getitem first (PyStr "message")) ;;
  lift (getitem message (PyStr "content")).

(** The three clients seen as variants of one capability. *)
Inductive Provider : Type :=
| Claude
| GPT4o
| DeepSeek.

Definition generate (w : World) (p : Provider) : string -> M pyval :=
  match p with
  | Claude => call_claude w
  | GPT4o => call_gpt4o w
  | DeepSeek => call_deepseek w
  end.

(** ** Streamlit calls *)

Definition draw (c : Container) (wd : Widget) : M unit := emit (Draw c wd).

Definition st_error (c : Container) (body : string) : M unit := draw c (W_error body).
Definition st_header (c : Container) (body : string) : M unit := draw c (W_header body).
Definition st_subheader (c : Container) (body : string) : M unit :=
  draw c (W_subheader body).
Definition st_code (c : Container) (body : pyval) (language : string) : M unit :=
  draw c (W_code body language).
(** [repr(type(v))] *)
Definition type_repr (v : pyval) : string :=
  match v with
  | PyNone => "<class 'NoneType'>"
  | PyBool _ => "<class 'bool'>"
  | PyInt _ => "<class 'int'>"
  | PyStr _ => "<class 'str'>"
  | PyList _ => "<class 'list'>"
  | PyDict _ => "<class 'dict'>"
  end.

(** What [st.download_button] raises on data it cannot serve. *)
Definition download_error (d : pyval) : exn :=
  StreamlitAPIException ("Invalid binary data format: " ++ type_repr d).

(** [st.download_button] serves text, bytes and open files.  Of the
    values a client can return only a [str] is one of these: the button
    is drawn for it, and for any other value the call raises. *)
Definition st_download_button (c : Container) (label : string) (d : pyval)
    (file_name : string) (mime key : option string) : M unit :=
  match d with
  | PyStr _ => draw c (W_download_button label d file_name mime key)
  | _ => lift (Raise (download_error d))
  end.

(** An input widget is drawn and returns the value the user left in it. *)
Definition st_input {A : Type} (c : Container) (wd : Widget) (value : A) : M A :=
  draw c wd ;; ret value.

Definition model_options : list string :=
  ["Claude 3.5 Sonnet (Best for Logic)";
   "GPT-4o (Best for Creativity)";
   "DeepSeek V3 (Best for Syntax)"].

Definition NO_EXTRA_REQUIREMENTS : string := "No extra requirements.".

(** [META_PROMPT_TEMPLATE.format(project_idea=..., requirements=...)] *)
Definition render (project_idea requirements : string) : Result string :=
  format META_PROMPT_TEMPLATE
    [("project_idea", project_idea); ("requirements", requirements)].

(** ** The script (app.py, lines 112-247) *)

(** Lines 145-185: the body of [if st.button(...)]. *)
Definition generate_section (w : World) (model project_idea requirements : string)
  : M unit :=
  if negb (truthy project_idea) then
    st_error Main "Please enter a project idea."
  else
    with_spinner "Crafting your perfect prompt..." (
      meta_prompt <- lift (render project_idea
                        (if truthy requirements then requirements
                         else NO_EXTRA_REQUIREMENTS)) ;;
      result <-
        (if str_in "Claude" model then
           try_except (call_claude w meta_prompt) (fun e =>
             st_error Main ("Error with Claude API: " ++ str_of_exn w e) ;;
             st_stop)
         else if str_in "GPT" model then
           try_except (call_gpt4o w meta_prompt) (fun e =>
             st_error Main ("Error with GPT-4o API: " ++ str_of_exn w e) ;;
             st_stop)
         else
           try_except (call_deepseek w meta_prompt) (fun e =>
             st_error Main ("Error with DeepSeek API: " ++ str_of_exn w e) ;;
             st_stop)) ;;
      st_header Main "✅ Generated Prompt" ;;
      st_code Main result "markdown" ;;
      st_download_button Main "📋 Copy Prompt to Clipboard" result
        "ai_prompt.md" (Some "text/markdown") None).

(** Lines 195-211, 213-229, 231-247: one [try] block of comparison mode. *)
Definition claude_slot (w : World) (project_idea requirements : string) : M unit :=
  try_except (
    st_subheader (Column 0) "Claude 3.5 Sonnet" ;;
    prompt <- lift (render project_idea requirements) ;;
    claude_result <- call_claude w prompt ;;
    st_code (Column 0) claude_result "markdown" ;;
    st_download_button (Column 0) "Download" claude_result
      "claude_prompt.md" None (Some "claude_dl"))
  (fun e => st_error (Column 0) ("Claude Error: " ++ str_of_exn w e)).

Definition gpt_slot (w : World) (project_idea requirements : string) : M unit :=
  try_except (
    st_subheader (Column 1) "GPT-4o" ;;
    prompt <- lift (render project_idea requirements) ;;
    gpt_result <- call_gpt4o w prompt ;;
    st_code (Column 1) gpt_result "markdown" ;;
    st_download_button (Column 1) "Download" gpt_result
      "gpt_prompt.md" None (Some "gpt_dl"))
  (fun e => st_error (Column 1) ("GPT-4o Error: " ++ str_of_exn w e)).

Definition deepseek_slot (w : World) (project_idea requirements : string) : M unit :=
  try_except (
    st_subheader (Column 2) "DeepSeek V3" ;;
    prompt <- lift (render project_idea requirements) ;;
    deepseek_result <- call_deepseek w prompt ;;
    st_code (Column 2) deepseek_result "markdown" ;;
    st_download_button (Column 2) "Download" deepseek_result
      "deepseek_prompt.md" None (Some "deepseek_dl"))
  (fun e => st_error (Column 2) ("DeepSeek Error: " ++ str_of_exn w e)).

(** Lines 192-247: the body of [if compare and project_idea]. *)
Definition comparison_section (w : World) (project_idea requirements : string)
  : M unit :=
  with_spinner "Comparing models..." (
    draw Main (W_columns 3) ;;
    claude_slot w project_idea requirements ;;
    gpt_slot w project_idea requirements ;;
    deepseek_slot w project_idea requirements).

Definition page_intro : string :=
  join_lines [
    "";
    "Generate **highly accurate, structured prompts** optimized for coding tasks.  ";
    "Choose an AI model, describe your task, and get a ready-to-use prompt!";
    ""
  ].

Definition script (w : World) (i : Inputs) : M unit :=
  draw Main (W_set_page_config "🚀 AI Prompt Generator" "wide") ;;
  draw Main (W_title "🚀 **AI Prompt Generator for Coding**") ;;
  draw Main (W_markdown page_intro) ;;
  st_header Sidebar "🧠 Select AI Model" ;;
  model <- st_input Sidebar
    (W_selectbox "Choose the AI model to generate your prompt:" model_options)
    (in_model i) ;;
  st_header Main "📝 Describe Your Coding Task" ;;
  project_idea <- st_input Main
    (W_text_area "Enter your project idea or coding task:"
       "Example: Build a REST API with Flask that connects to PostgreSQL..." 100)
    (in_project_idea i) ;;
  requirements <- st_input Main
    (W_text_area "Additional requirements (optional):"
       "Example: Use SQLAlchemy, include JWT authentication, return JSON responses..." 80)
    (in_requirements i) ;;
  pressed <- st_input Main (W_button "🔮 Generate Prompt") (in_button i) ;;
  (if pressed then generate_section w model project_idea requirements else ret tt) ;;
  st_header Main "🆚 Compare Multiple Models" ;;
  compare <- st_input Main
    (W_checkbox "Enable comparison mode (generates prompts from all models)")
    (in_compare i) ;;
  if compare && truthy project_idea
  then comparison_section w project_idea requirements
  else ret tt.

(** One run of the page. *)
Definition run (w : World) (i : Inputs) : Outcome unit * Log := script w i 0.

(** ** Vocabulary of the statements *)

(** The literal text of the template around its two fields. *)
Definition prompt_head : string :=
  join_lines [
    "";
    "You are an Expert AI Prompt Engineer specializing in generating highly effective prompts for coding and development tasks.";
    "";
    "Your task is to create a detailed, structured prompt that I can use with any AI model to solve the following problem:";
    "";
    "**PROJECT IDEA:**";
    ""
  ].

Definition prompt_mid : string :=
  join_lines [""; ""; "**REQUIREMENTS:**"; ""].

Definition structure_lines : list string :=
  [ "---";
    "**Role:** [Describe the expert role, e.g., " ++ dq
      ++ "Senior Full-Stack Developer with 10+ years of experience in React and Node.js" ++ dq ++ "]";
    "**Context:** [Briefly explain the project, tech stack, and constraints]";
    "**Task Instructions:** ";
    "1. [Step 1]";
    "2. [Step 2]";
    "...";
    "**Constraints:**";
    "- Must include [specific requirement 1]";
    "- Must avoid [specific restriction 1]";
    "...";
    "**Output Format:**";
    "- Provide complete, runnable code blocks.";
    "- Include error handling.";
    "- Add comments explaining key sections.";
    "- Do NOT use placeholders like " ++ dq ++ "// ..." ++ dq ++ ".";
    "---";
    "" ].

Definition prompt_tail : string :=
  join_lines
    ([""; ""; "Please follow this exact structure for the output prompt:"; ""]
     ++ structure_lines)%list.

(** The template with its two fields filled in. *)
Definition filled (project_idea requirements : string) : string :=
  prompt_head ++ project_idea ++ prompt_mid ++ requirements ++ prompt_tail.

Definition section_headers : list string :=
  ["**PROJECT IDEA:**"; "**REQUIREMENTS:**"; "**Role:**"; "**Context:**";
   "**Task Instructions:**"; "**Constraints:**"; "**Output Format:**"].

(** [sub] occurs in [s]. *)
Definition contains (s sub : string) : Prop :=
  exists before after, s = before ++ sub ++ after.

(** The strings of [hs] occur in [s] one after the other, without
    overlap, in the order of the list. *)
Fixpoint occur_in_order (hs : list string) (s : string) : Prop :=
  match hs with
  | [] => True
  | h :: hs' => exists before after, s = before ++ h ++ after /\ occur_in_order hs' after
  end.

(** The prompt each path of the script renders for a provider call. *)
Definition single_prompt (project_idea requirements : string) : Result string :=
  render project_idea
    (if truthy requirements then requirements else NO_EXTRA_REQUIREMENTS).

Definition comparison_prompt (project_idea requirements : string) : Result string :=
  render project_idea requirements.

(** The branch the [if]/[elif]/[else] on the model name takes. *)
Definition selected (model : string) : Provider :=
  if str_in "Claude" model then Claude
  else if str_in "GPT" model then GPT4o
  else DeepSeek.

Definition secret_name (p : Provider) : string :=
  match p with
  | Claude => "ANTHROPIC_API_KEY"
  | GPT4o => "OPENAI_API_KEY"
  | DeepSeek => "DEEPSEEK_API_KEY"
  end.

Definition endpoint (p : Provider) : string :=
  match p with
  | Claude => "https://api.anthropic.com/v1/messages"
  | GPT4o => "https://api.openai.com/v1/chat/completions"
  | DeepSeek => "https://api.deepseek.com/v1/chat/completions"
  end.

(** The key path each client follows into the decoded body. *)
Definition answer_path (p : Provider) : list pyval :=
  match p with
  | Claude => [PyStr "content"; PyInt 0; PyStr "text"]
  | GPT4o | DeepSeek => [PyStr "choices"; PyInt 0; PyStr "message"; PyStr "content"]
  end.

Fixpoint follow (v : pyval) (path : list pyval) : Result pyval :=
  match path with
  | [] => Ok v
  | k :: path' =>
      match getitem v k with
      | Ok v' => follow v' path'
      | Raise e => Raise e
      end
  end.

(** The body the spec gives as the expected shape around a text [x]. *)
Definition expected_body (p : Provider) (x : pyval) : pyval :=
  match p with
  | Claude => PyDict [("content", PyList [PyDict [("text", x)]])]
  | GPT4o | DeepSeek =>
      PyDict [("choices", PyList [PyDict [("message", PyDict [("content", x)])]])]
  end.

Definition is_2xx (r : Response) : bool :=
  ((200 <=? status_code r) && (status_code r <? 300))%Z.

(** The request each client builds from its key and the prompt. *)
Definition request_for (p : Provider) (key prompt : string) : Request :=
  match p with
  | Claude =>
      {| url := "https://api.anthropic.com/v1/messages";
         headers := [("x-api-key", key); ("content-type", "application/json")];
         data := PyDict [("model", PyStr "claude-3-5-sonnet-20241022");
                         ("max_tokens", PyInt 1500);
                         ("messages", user_message prompt)] |}
  | GPT4o =>
      {| url := "https://api.openai.com/v1/chat/completions";
         headers := [("Authorization", "Bearer " ++ key);
                     ("Content-Type", "application/json")];
         data := PyDict [("model", PyStr "gpt-4o");
                         ("messages", user_message prompt)] |}
  | DeepSeek =>
      {| url := "https://api.deepseek.com/v1/chat/completions";
         headers := [("Authorization", "Bearer " ++ key);
                     ("Content-Type", "application/json")];
         data := PyDict [("model", PyStr "deepseek-chat");
                         ("messages", user_message prompt)] |}
  end.

(** What a client makes of a response: the status check, the decoding and
    the walk along the key path. *)
Definition extract (p : Provider) (r : Response) : Result pyval :=
  match raise_for_status r with
  | Raise e => Raise e
  | Ok _ =>
      match response_json r with
      | Raise e => Raise e
      | Ok body => follow body (answer_path p)
      end
  end.

Definition outcome_of {A : Type} (r : Result A) : Outcome A :=
  match r with
  | Ok a => Val a
  | Raise e => Exc e
  end.

(** The response carries a text at the end of the provider's key path. *)
Definition has_text (p : Provider) (r : Response) (x : string) : Prop :=
  exists body, json r = Some body /\ follow body (answer_path p) = Ok (PyStr x).

Definition is_4xx_5xx (r : Response) : bool :=
  ((400 <=? status_code r) && (status_code r <? 600))%Z.

(** The exceptions subscripting can raise. *)
Definition is_lookup_error (e : exn) : bool :=
  match e with
  | KeyError _ | IndexError | TypeError => true
  | _ => false
  end.

(** A mocked setting: every secret is set and every request is answered
    by [r]. *)
Definition mock_world (r : Response) : World :=
  {| secrets := fun _ => Ok "sk-test";
     post := fun _ _ => Ok r;
     str_of_exn := fun _ => "error" |}.

Definition quoted (s : string) : string := dq ++ s ++ dq.

(** A request goes out only while no other is in flight, and an exchange
    ends only while one is: [cur] is the number of requests in flight
    before the first event. *)
Fixpoint sequential_from (cur : nat) (log : Log) : bool :=
  match log with
  | [] => true
  | HttpSend _ :: rest => Nat.eqb cur 0 && sequential_from 1 rest
  | HttpDone _ :: rest => Nat.eqb cur 1 && sequential_from 0 rest
  | Draw _ _ :: rest => sequential_from cur rest
  end.

Definition sequential (log : Log) : bool := sequential_from 0 log.

Definition is_net (e : Event) : bool :=
  match e with
  | Draw _ _ => false
  | _ => true
  end.

(** The endpoints contacted in a log, in order. *)
Fixpoint contacted (log : Log) : list string :=
  match log with
  | [] => []
  | HttpSend rq :: rest => url rq :: contacted rest
  | _ :: rest => contacted rest
  end.

(** The widgets the page draws before the button. *)
Definition page_top : Log :=
  [ Draw Main (W_set_page_config "🚀 AI Prompt Generator" "wide");
    Draw Main (W_title "🚀 **AI Prompt Generator for Coding**");
    Draw Main (W_markdown page_intro);
    Draw Sidebar (W_header "🧠 Select AI Model");
    Draw Sidebar (W_selectbox "Choose the AI model to generate your prompt:" model_options);
    Draw Main (W_header "📝 Describe Your Coding Task");
    Draw Main (W_text_area "Enter your project idea or coding task:"
       "Example: Build a REST API with Flask that connects to PostgreSQL..." 100);
    Draw Main (W_text_area "Additional requirements (optional):"
       "Example: Use SQLAlchemy, include JWT authentication, return JSON responses..." 80);
    Draw Main (W_button "🔮 Generate Prompt") ].

(** The [except] message of each branch of single-model mode and of each
    comparison slot, and the slot's column and download. *)
Definition single_error (w : World) (p : Provider) (e : exn) : string :=
  match p with
  | Claude => "Error with Claude API: "
  | GPT4o => "Error with GPT-4o API: "
  | DeepSeek => "Error with DeepSeek API: "
  end ++ str_of_exn w e.

Definition slot (w : World) (p : Provider) : string -> string -> M unit :=
  match p with
  | Claude => claude_slot w
  | GPT4o => gpt_slot w
  | DeepSeek => deepseek_slot w
  end.

Definition slot_column (p : Provider) : nat :=
  match p with
  | Claude => 0
  | GPT4o => 1
  | DeepSeek => 2
  end.

Definition slot_title (p : Provider) : string :=
  match p with
  | Claude => "Claude 3.5 Sonnet"
  | GPT4o => "GPT-4o"
  | DeepSeek => "DeepSeek V3"
  end.

Definition slot_file (p : Provider) : string :=
  match p with
  | Claude => "claude_prompt.md"
  | GPT4o => "gpt_prompt.md"
  | DeepSeek => "deepseek_prompt.md"
  end.

Definition slot_key (p : Provider) : string :=
  match p with
  | Claude => "claude_dl"
  | GPT4o => "gpt_dl"
  | DeepSeek => "deepseek_dl"
  end.

Definition slot_error (w : World) (p : Provider) (e : exn) : string :=
  match p with
  | Claude => "Claude Error: "
  | GPT4o => "GPT-4o Error: "
  | DeepSeek => "DeepSeek Error: "
  end ++ str_of_exn w e.

(** What a slot draws once its call has ended with [o]: for a text the
    code block and the download button; for a value that is not a text
    the code block and, the download button having raised, the error
    message; for an exception the error message. *)
Definition slot_result (w : World) (p : Provider) (o : Outcome pyval) : Log :=
  match o with
  | Val v =>
      Draw (Column (slot_column p)) (W_code v "markdown")
      :: match v with
         | PyStr _ =>
             [ Draw (Column (slot_column p))
                 (W_download_button "Download" v (slot_file p) None (Some (slot_key p))) ]
         | _ =>
             [ Draw (Column (slot_column p))
                 (W_error (slot_error w p (download_error v))) ]
         end
  | Exc e => [ Draw (Column (slot_column p)) (W_error (slot_error w p e)) ]
  | Halt => []
  end.

(** Everything a slot adds to the run: its title, the exchange [net] of
    its call and what it draws for the call's outcome [o]. *)
Definition slot_log (w : World) (p : Provider) (net : Log) (o : Outcome pyval) : Log :=
  (Draw (Column (slot_column p)) (W_subheader (slot_title p)) :: net
   ++ slot_result w p o)%list.

(** What single-model mode draws for the outcome of its call: for a
    text the header, the code block and the download button; for a value
    that is not a text the header and the code block, the download button
    raising after them; for an exception the error message. *)
Definition single_result (w : World) (p : Provider) (o : Outcome pyval) : Log :=
  match o with
  | Val v =>
      Draw Main (W_header "✅ Generated Prompt")
      :: Draw Main (W_code v "markdown")
      :: match v with
         | PyStr _ =>
             [ Draw Main (W_download_button "📋 Copy Prompt to Clipboard" v
                            "ai_prompt.md" (Some "text/markdown") None) ]
         | _ => []
         end
  | Exc e => [ Draw Main (W_error (single_error w p e)) ]
  | Halt => []
  end.

(** How the button's block ends for the outcome of its call: normally
    after a text, with the download button's exception after any other
    value, halted after an exception. *)
Definition single_end (o : Outcome pyval) : Outcome unit :=
  match o with
  | Val (PyStr _) => Val tt
  | Val v => Exc (download_error v)
  | _ => Halt
  end.

(** The widgets that open comparison mode. *)
Definition compare_widgets : Log :=
  [ Draw Main (W_header "🆚 Compare Multiple Models");
    Draw Main (W_checkbox "Enable comparison mode (generates prompts from all models)") ].

(** The events of one call: nothing when the key cannot be read,
    otherwise one request to the provider's endpoint and its end. *)
Definition call_events (p : Provider) (net : Log) : Prop :=
  net = [] \/ exists rq r, net = [HttpSend rq; HttpDone r] /\ url rq = endpoint p.

(** Sample responses. *)
Definition unauthorized : Response :=
  {| status_code := 401;
     text := "{" ++ quoted "error" ++ ":" ++ quoted "invalid x-api-key" ++ "}";
     json := Some (PyDict [("error", PyStr "invalid x-api-key")]) |}.

Definition number_for_text : Response :=
  {| status_code := 200;
     text := "{" ++ quoted "content" ++ ":[{" ++ quoted "text" ++ ":5}]}";
     json := Some (expected_body Claude (PyInt 5)) |}.

Definition multiple_choices : Response :=
  {| status_code := 300;
     text := "{" ++ quoted "content" ++ ":[{" ++ quoted "text" ++ ":" ++ quoted "X" ++ "}]}";
     json := Some (expected_body Claude (PyStr "X")) |}.

Definition has_secret (w : World) (p : Provider) : bool :=
  match secrets w (secret_name p) with
  | Ok _ => true
  | Raise _ => false
  end.

Definition providers : list Provider := [Claude; GPT4o; DeepSeek].

(** The file name a download button must carry, by the place it is drawn
    in: the page itself in single-model mode, a column in comparison
    mode. *)
Definition expected_file (c : Container) : option string :=
  match c with
  | Main => Some "ai_prompt.md"
  | Column 0 => Some "claude_prompt.md"
  | Column 1 => Some "gpt_prompt.md"
  | Column 2 => Some "deepseek_prompt.md"
  | _ => None
  end.

Definition file_name_ok (e : Event) : Prop :=
  match e with
  | Draw c (W_download_button _ _ file_name _ _) => expected_file c = Some file_name
  | _ => True
  end.

(** The event [e], coming right after [prev], is no download button or
    is one that offers what the code block [prev] shows, in its
    container. *)
Definition offers_what_precedes (prev : option Event) (e : Event) : Prop :=
  match e with
  | Draw c (W_download_button _ offered _ _ _) =>
      exists language, prev = Some (Draw c (W_code offered language))
  | _ => True
  end.

(** The event [e], followed by [rest], is no code block of a text or is
    one that is followed at once by a download button of its container
    offering that text. *)
Definition text_is_offered_next (e : Event) (rest : Log) : Prop :=
  match e with
  | Draw c (W_code (PyStr x) _) =>
      match rest with
      | Draw c' (W_download_button _ offered _ _ _) :: _ => c = c' /\ offered = PyStr x
      | _ => False
      end
  | _ => True
  end.

(** Every download button stands right after a code block of the same
    container and offers the very value the block shows, and every code
    block that shows a text is followed at once by such a button. *)
Fixpoint shown_is_offered_from (prev : option Event) (log : Log) : Prop :=
  match log with
  | [] => True
  | e :: rest =>
      offers_what_precedes prev e
      /\ text_is_offered_next e rest
      /\ shown_is_offered_from (Some e) rest
  end.

Definition shown_is_offered (log : Log) : Prop := shown_is_offered_from None log.

(** The prompt texts carried by the requests of a log, in order. *)
Fixpoint prompts_sent (log : Log) : list (Result pyval) :=
  match log with
  | [] => []
  | HttpSend rq :: rest =>
      follow (data rq) [PyStr "messages"; PyInt 0; PyStr "content"] :: prompts_sent rest
  | _ :: rest => prompts_sent rest
  end.

Definition sample_inputs (button compare : bool) (requirements : string) : Inputs :=
  {| in_model := "GPT-4o (Best for Creativity)";
     in_project_idea := "a todo app";
     in_requirements := requirements;
     in_button := button;
     in_compare := compare |}.

Definition text_answer : Response :=
  {| status_code := 200;
     text := "{" ++ quoted "choices" ++ ":[{" ++ quoted "message" ++ ":{"
             ++ quoted "content" ++ ":" ++ quoted "X" ++ "}}]}";
     json := Some (expected_body GPT4o (PyStr "X")) |}.

(** A setting in which Claude's endpoint refuses the key and the other
    two answer. *)
Definition claude_down : World :=
  {| secrets := fun _ => Ok "sk-test";
     post := fun _ rq =>
       if String.eqb (url rq) (endpoint Claude) then Ok unauthorized else Ok text_answer;
     str_of_exn := fun e =>
       match e with
       | HTTPError _ => "401 Client Error"
       | _ => "error"
       end |}.

(** A stretch of a run that starts and ends with no request in flight
    and is sequential in between. *)
Definition balanced (log : Log) : Prop :=
  forall rest, sequential_from 0 (log ++ rest)%list = sequential_from 0 rest.

(** The widgets other than the two that carry a result. *)
Definition plain (wd : Widget) : bool :=
  match wd with
  | W_code _ _ | W_download_button _ _ _ _ _ => false
  | _ => true
  end.

(** The suffix of [s] after the prefix [h], and after the first
    occurrence of [h]. *)
Fixpoint strip_prefix (h s : string) : option string :=
  match h with
  | EmptyString => Some s
  | String c h' =>
      match s with
      | EmptyString => None
      | String d s' => if Ascii.eqb c d then strip_prefix h' s' else None
      end
  end.

Fixpoint after_first (h s : string) : option string :=
  match strip_prefix h s with
  | Some rest => Some rest
  | None =>
      match s with
      | EmptyString => None
      | String _ s' => after_first h s'
      end
  end.

Fixpoint occur_in_order_b (hs : list string) (s : string) : bool :=
  match hs with
  | [] => true
  | h :: hs' =>
      match after_first h s with
      | Some rest => occur_in_order_b hs' rest
      | None => false
      end
  end.

Definition is_text (v : pyval) : bool :=
  match v with
  | PyStr _ => true
  | _ => false
  end.

(** The computation ran to its end. *)
Definition completed {A : Type} (o : Outcome A) : bool :=
  match o with
  | Val _ => true
  | _ => false
  end.

(** The requirements text single-model mode puts into the template. *)
Definition requirements_or_sentinel (requirements : string) : string :=
  if truthy requirements then requirements else NO_EXTRA_REQUIREMENTS.

(** A request of a run of the page on the inputs [i] is well addressed
    when it is the request some client builds from its own key and from
    the template filled with the project idea and with the requirements
    or the sentinel. *)
Definition addressed (w : World) (i : Inputs) (e : Event) : Prop :=
  match e with
  | HttpSend rq =>
      exists p key r,
        secrets w (secret_name p) = Ok key
        /\ (r = in_requirements i \/ r = NO_EXTRA_REQUIREMENTS)
        /\ rq = request_for p key (filled (in_project_idea i) r)
  | _ => True
  end.

(** The key path of a client, split at the list it indexes. *)
Definition list_key (p : Provider) : string :=
  match p with
  | Claude => "content"
  | GPT4o | DeepSeek => "choices"
  end.

Definition item_path (p : Provider) : list pyval :=
  match p with
  | Claude => [PyStr "text"]
  | GPT4o | DeepSeek => [PyStr "message"; PyStr "content"]
  end.

(** An answer with two choices and fields the clients do not read. *)
Definition two_choices : Response :=
  {| status_code := 200;
     text := "";
     json := Some (PyDict [("id", PyStr "chatcmpl-1");
                           ("choices",
                            PyList [PyDict [("index", PyInt 0);
                                            ("message", PyDict [("role", PyStr "assistant");
                                                                ("content", PyStr "first")])];
                                    PyDict [("index", PyInt 1);
                                            ("message", PyDict [("content", PyStr "second")])]]);
                           ("usage", PyDict [("total_tokens", PyInt 42)])]) |}.

Definition no_choices : Response :=
  {| status_code := 200;
     text := "";
     json := Some (PyDict [("choices", PyList [])]) |}.

(** A setting without any key, and one whose network is down. *)
Definition no_keys : World :=
  {| secrets := fun name => Raise (SecretError name);
     post := fun _ _ => Ok text_answer;
     str_of_exn := fun e =>
       match e with
       | SecretError name => name
       | _ => "error"
       end |}.

Definition network_down : World :=
  {| secrets := fun _ => Ok "sk-test";
     post := fun _ _ => Raise (TransportError "connection refused");
     str_of_exn := fun e =>
       match e with
       | TransportError msg => msg
       | _ => "error"
       end |}.

(** * Properties *)

Unset Implicit Arguments.

(** ** The template *)

Lemma template_split :
  META_PROMPT_TEMPLATE
  = prompt_head ++ "{project_idea}" ++ prompt_mid ++ "{requirements}" ++ prompt_tail.
Proof. reflexivity. Qed.

Lemma render_filled (a b : string) : render a b = Ok (filled a b).
Proof. reflexivity. Qed.

(** ** Occurrences in strings *)

Lemma append_assoc (a b c : string) : (a ++ b) ++ c = a ++ (b ++ c).
Proof.
  induction a as [|ch a IH]; simpl; [reflexivity|].
  now rewrite IH.
Qed.

Lemma prefix_split (p s : string) :
  String.prefix p s = true <-> exists rest, s = p ++ rest.
Proof.
  revert s; induction p as [|c p IH]; intros s; simpl.
  - split; [intros _; now exists s | intros _; now destruct s].
  - destruct s as [|d s]; simpl.
    + split; [discriminate | intros [rest H]; discriminate].
    + destruct (ascii_dec c d) as [->|Hcd].
      * rewrite IH. split; intros [rest H]; exists rest; congruence.
      * split; [discriminate | intros [rest H]; congruence].
Qed.

Lemma str_in_contains (sub s : string) : str_in sub s = true <-> contains s sub.
Proof.
  unfold contains. induction s as [|c s IH].
  - cbn [str_in]. rewrite orb_false_r, prefix_split. split.
    + intros [rest H]. now exists "", rest.
    + intros [[|d b] [a H]]; simpl in H; [now exists a | discriminate].
  - cbn [str_in]. rewrite orb_true_iff, prefix_split, IH. split.
    + intros [[rest H] | (b & a & H)].
      * now exists "", rest.
      * exists (String c b), a. simpl. now rewrite H.
    + intros [[|d b] [a H]]; simpl in H.
      * left. now exists a.
      * right. exists b, a. congruence.
Qed.

Lemma contains_middle (x sub y : string) : contains (x ++ sub ++ y) sub.
Proof. now exists x, y. Qed.

Lemma contains_skip (x s sub : string) : contains s sub -> contains (x ++ s) sub.
Proof.
  intros (b & a & ->). exists (x ++ b), a. now rewrite append_assoc.
Qed.

Lemma occur_skip (hs : list string) (x s : string) :
  occur_in_order hs s -> occur_in_order hs (x ++ s).
Proof.
  destruct hs as [|h hs]; simpl; [trivial|].
  intros (b & a & -> & H). exists (x ++ b), a.
  split; [now rewrite append_assoc | exact H].
Qed.

Lemma occur_app (hs1 hs2 : list string) (s1 s2 : string) :
  occur_in_order hs1 s1 -> occur_in_order hs2 s2 ->
  occur_in_order (hs1 ++ hs2) (s1 ++ s2).
Proof.
  revert s1; induction hs1 as [|h hs1 IH]; intros s1 H1 H2.
  - now apply occur_skip.
  - destruct H1 as (b & a & -> & H1). exists b, (a ++ s2). split.
    + now rewrite !append_assoc.
    + now apply IH.
Qed.

Lemma strip_prefix_sound (h s rest : string) :
  strip_prefix h s = Some rest -> s = h ++ rest.
Proof.
  revert s; induction h as [|c h IH]; intros s; simpl.
  - congruence.
  - destruct s as [|d s]; [discriminate|].
    destruct (Ascii.eqb_spec c d) as [->|]; [|discriminate].
    intros H. now rewrite (IH _ H).
Qed.

Lemma after_first_sound (h s rest : string) :
  after_first h s = Some rest -> exists before, s = before ++ h ++ rest.
Proof.
  induction s as [|c s IH]; cbn [after_first].
  - destruct (strip_prefix h "") eqn:E; [|discriminate].
    intros [= ->]. exists "". exact (strip_prefix_sound _ _ _ E).
  - destruct (strip_prefix h (String c s)) eqn:E.
    + intros [= ->]. exists "". exact (strip_prefix_sound _ _ _ E).
    + intros H. destruct (IH H) as [b ->]. now exists (String c b).
Qed.

Lemma occur_in_order_b_sound (hs : list string) (s : string) :
  occur_in_order_b hs s = true -> occur_in_order hs s.
Proof.
  revert s; induction hs as [|h hs IH]; intros s; simpl; [trivial|].
  destruct (after_first h s) as [rest|] eqn:E; [|discriminate].
  intros H. destruct (after_first_sound _ _ _ E) as [b ->].
  exists b, rest. split; [reflexivity | now apply IH].
Qed.

Lemma headers_in_filled (a b : string) :
  occur_in_order section_headers (filled a b).
Proof.
  unfold filled.
  change section_headers with
    (["**PROJECT IDEA:**"] ++ ["**REQUIREMENTS:**"]
     ++ ["**Role:**"; "**Context:**"; "**Task Instructions:**";
         "**Constraints:**"; "**Output Format:**"])%list.
  apply occur_app; [apply occur_in_order_b_sound; vm_compute; reflexivity|].
  apply occur_skip.
  apply occur_app; [apply occur_in_order_b_sound; vm_compute; reflexivity|].
  apply occur_skip.
  apply occur_in_order_b_sound; vm_compute; reflexivity.
Qed.

Lemma inputs_in_filled (a b : string) :
  contains (filled a b) a /\ contains (filled a b) b.
Proof.
  unfold filled. split.
  - apply contains_middle.
  - do 2 apply contains_skip. apply contains_middle.
Qed.

(** C6: for every non-empty project idea and every requirements text, the
    empty one included, both paths of the script render a prompt (the call
    to [format] succeeds) which contains the project idea and the
    requirements as they were typed and in which the section headers
    PROJECT IDEA, REQUIREMENTS, Role, Context, Task Instructions,
    Constraints, Output Format occur in this order. *)
Theorem render_keeps_inputs_and_headers (project_idea requirements : string) :
  project_idea <> "" ->
  (exists s, single_prompt project_idea requirements = Ok s
             /\ contains s project_idea /\ contains s requirements
             /\ occur_in_order section_headers s)
  /\ (exists s, comparison_prompt project_idea requirements = Ok s
                /\ contains s project_idea /\ contains s requirements
                /\ occur_in_order section_headers s).
Proof.
  intros _. unfold single_prompt, comparison_prompt. split.
  - rewrite render_filled. eexists; split; [reflexivity|].
    destruct requirements as [|c r]; cbn [truthy].
    + repeat split.
      * apply inputs_in_filled.
      * now exists "", (filled project_idea NO_EXTRA_REQUIREMENTS).
      * apply headers_in_filled.
    + repeat split; try apply inputs_in_filled. apply headers_in_filled.
  - rewrite render_filled. eexists; split; [reflexivity|].
    repeat split; try apply inputs_in_filled. apply headers_in_filled.
Qed.

Lemma render_keeps_inputs_and_headers_witness :
  (exists s, single_prompt "a todo app" "" = Ok s
             /\ contains s "a todo app" /\ contains s ""
             /\ occur_in_order section_headers s)
  /\ (exists s, comparison_prompt "a todo app" "" = Ok s
                /\ contains s "a todo app" /\ contains s ""
                /\ occur_in_order section_headers s).
Proof. apply (render_keeps_inputs_and_headers "a todo app" ""). discriminate. Defined.

(** ** The clients *)

Lemma generate_run (w : World) (p : Provider) (prompt : string) (n : nat) :
  generate w p prompt n =
  match secrets w (secret_name p) with
  | Raise e => (Exc e, [])
  | Ok key =>
      let rq := request_for p key prompt in
      match post w n rq with
      | Raise e => (Exc e, [HttpSend rq; HttpDone (Raise e)])
      | Ok r => (outcome_of (extract p r), [HttpSend rq; HttpDone (Ok r)])
      end
  end.
Proof.
  destruct p; cbn [generate secret_name];
    unfold call_claude, call_gpt4o, call_deepseek, st_secrets, requests_post,
      bind, lift, extract;
    (destruct (secrets w _) as [key|e]; [|reflexivity]);
    cbn [request_for sends filter is_send List.length Nat.add app];
    (destruct (post w n _) as [r|e]; [|reflexivity]);
    cbn [sends filter is_send List.length Nat.add app];
    (destruct (raise_for_status r) as [[]|e]; [|reflexivity]);
    cbn [sends filter is_send List.length Nat.add app];
    (destruct (response_json r) as [body|e]; [|reflexivity]);
    cbn [sends filter is_send List.length Nat.add app answer_path follow];
    repeat match goal with
           | |- context [getitem ?v ?k] => destruct (getitem v k); cbn
           end;
    reflexivity.
Qed.

Lemma follow_expected_body (p : Provider) (x : pyval) :
  follow (expected_body p x) (answer_path p) = Ok x.
Proof. destruct p; reflexivity. Qed.

Lemma getitem_errors (v k : pyval) (e : exn) :
  getitem v k = Raise e -> is_lookup_error e = true.
Proof.
  unfold getitem. intros H.
  destruct v as [| | | s | l | d];
    try (injection H as <-; reflexivity).
  - destruct (index_of k) as [i|]; [|injection H as <-; reflexivity].
    destruct (get_py s i); [discriminate | injection H as <-; reflexivity].
  - destruct (index_of k) as [i|]; [|injection H as <-; reflexivity].
    destruct (nth_py l i); [discriminate | injection H as <-; reflexivity].
  - destruct k as [| | | key | |]; try (injection H as <-; reflexivity).
    destruct (assoc key d); [discriminate | injection H as <-; reflexivity].
Qed.

Lemma follow_errors (path : list pyval) (v : pyval) (e : exn) :
  follow v path = Raise e -> is_lookup_error e = true.
Proof.
  revert v; induction path as [|k path IH]; intros v; simpl; [discriminate|].
  destruct (getitem v k) as [v'|e'] eqn:E.
  - apply IH.
  - intros [= <-]. exact (getitem_errors _ _ _ E).
Qed.

Lemma raise_for_status_passes (r : Response) :
  is_4xx_5xx r = false -> raise_for_status r = Ok tt.
Proof. unfold is_4xx_5xx, raise_for_status. now intros ->. Qed.

Lemma raise_for_status_raises (r : Response) :
  is_4xx_5xx r = true -> raise_for_status r = Raise (HTTPError r).
Proof. unfold is_4xx_5xx, raise_for_status. now intros ->. Qed.

(** C4: for each of the three providers, when the key is configured and
    the provider answers the request with status 200 and the body that
    holds the string X at content[0].text (Claude) or at
    choices[0].message.content (GPT-4o, DeepSeek) and nothing else, the
    client returns exactly the string X, after that one exchange. *)
Theorem generate_returns_text
    (w : World) (p : Provider) (prompt : string) (n : nat)
    (key : string) (r : Response) (x : string) :
  secrets w (secret_name p) = Ok key ->
  post w n (request_for p key prompt) = Ok r ->
  status_code r = 200%Z ->
  json r = Some (expected_body p (PyStr x)) ->
  generate w p prompt n
  = (Val (PyStr x), [HttpSend (request_for p key prompt); HttpDone (Ok r)]).
Proof.
  intros Hkey Hpost Hstatus Hjson.
  rewrite generate_run, Hkey. cbn zeta. rewrite Hpost.
  unfold extract, response_json.
  rewrite raise_for_status_passes by (unfold is_4xx_5xx; now rewrite Hstatus).
  rewrite Hjson, follow_expected_body. reflexivity.
Qed.

Lemma generate_returns_text_witness :
  generate
    (mock_world {| status_code := 200; text := "";
                   json := Some (expected_body GPT4o (PyStr "X")) |})
    GPT4o "prompt" 0
  = (Val (PyStr "X"),
     [HttpSend (request_for GPT4o "sk-test" "prompt");
      HttpDone (Ok {| status_code := 200; text := "";
                      json := Some (expected_body GPT4o (PyStr "X")) |})]).
Proof.
  apply (generate_returns_text
           (mock_world {| status_code := 200; text := "";
                          json := Some (expected_body GPT4o (PyStr "X")) |})
           GPT4o "prompt" 0 "sk-test"); reflexivity.
Defined.

(** C5, as the code has it: once the key is configured and the provider
    has answered, the client raises [HTTPError] carrying the response
    (status and body) for the statuses 400 to 599, 401 among them; for
    any other status it raises [JSONDecodeError] when the body is not
    JSON, raises the [KeyError], [IndexError] or [TypeError] of the first
    subscript that fails along the key path, and returns the text found
    at the end of the path, whole, when there is one. *)
Theorem generate_outcome
    (w : World) (p : Provider) (prompt : string) (n : nat)
    (key : string) (r : Response) :
  secrets w (secret_name p) = Ok key ->
  post w n (request_for p key prompt) = Ok r ->
  let ev := [HttpSend (request_for p key prompt); HttpDone (Ok r)] in
  (is_4xx_5xx r = true -> generate w p prompt n = (Exc (HTTPError r), ev))
  /\ (status_code r = 401%Z -> generate w p prompt n = (Exc (HTTPError r), ev))
  /\ (is_4xx_5xx r = false -> json r = None ->
      generate w p prompt n = (Exc JSONDecodeError, ev))
  /\ (is_4xx_5xx r = false ->
      forall body e, json r = Some body -> follow body (answer_path p) = Raise e ->
      is_lookup_error e = true /\ generate w p prompt n = (Exc e, ev))
  /\ (is_4xx_5xx r = false ->
      forall body x, json r = Some body ->
      follow body (answer_path p) = Ok (PyStr x) ->
      generate w p prompt n = (Val (PyStr x), ev)).
Proof.
  intros Hkey Hpost ev.
  assert (Hrun : generate w p prompt n = (outcome_of (extract p r), ev)).
  { rewrite generate_run, Hkey. cbn zeta. now rewrite Hpost. }
  rewrite Hrun. unfold extract, response_json.
  split; [|split; [|split; [|split]]].
  - intros H. now rewrite raise_for_status_raises.
  - intros H. rewrite raise_for_status_raises; [reflexivity|].
    unfold is_4xx_5xx. now rewrite H.
  - intros H Hj. now rewrite raise_for_status_passes, Hj.
  - intros H body e Hj Hf. split; [exact (follow_errors _ _ _ Hf)|].
    now rewrite raise_for_status_passes, Hj, Hf.
  - intros H body x Hj Hf. now rewrite raise_for_status_passes, Hj, Hf.
Qed.

Lemma generate_outcome_witness :
  generate (mock_world unauthorized) DeepSeek "prompt" 0
  = (Exc (HTTPError unauthorized),
     [HttpSend (request_for DeepSeek "sk-test" "prompt"); HttpDone (Ok unauthorized)])
  /\ status_code unauthorized = 401%Z.
Proof.
  pose proof (generate_outcome (mock_world unauthorized) DeepSeek "prompt" 0
                "sk-test" unauthorized eq_refl eq_refl) as H.
  cbv zeta in H. destruct H as (_ & H & _).
  split; [apply H|]; reflexivity.
Defined.

(** C5 as worded does not hold of the clients: a 200 answer whose text
    field holds a number, not a string, is returned as it is and nothing is
    raised; and an answer with status 300, which is not 2xx, passes the
    status check and its text is returned. *)
Lemma provider_error_counterexample :
  (is_2xx number_for_text = true
   /\ (forall x, ~ has_text Claude number_for_text x)
   /\ generate (mock_world number_for_text) Claude "prompt" 0
      = (Val (PyInt 5),
         [HttpSend (request_for Claude "sk-test" "prompt");
          HttpDone (Ok number_for_text)]))
  /\ (is_2xx multiple_choices = false
      /\ generate (mock_world multiple_choices) Claude "prompt" 0
         = (Val (PyStr "X"),
            [HttpSend (request_for Claude "sk-test" "prompt");
             HttpDone (Ok multiple_choices)])).
Proof.
  repeat split.
  intros x (body & Hj & Hf). injection Hj as <-. discriminate Hf.
Qed.

(** ** The sections of the page *)

Lemma sends_app (a b : Log) : sends (a ++ b)%list = sends a + sends b.
Proof. unfold sends. now rewrite filter_app, length_app. Qed.

Lemma sends_slot_result (w : World) (p : Provider) (o : Outcome pyval) :
  sends (slot_result w p o) = 0.
Proof. destruct o as [[]|e|]; reflexivity. Qed.

Lemma generate_cases (w : World) (p : Provider) (prompt : string) (n : nat) :
  exists o net, generate w p prompt n = (o, net) /\ o <> Halt /\ call_events p net.
Proof.
  rewrite generate_run. unfold call_events.
  destruct (secrets w (secret_name p)) as [key|e].
  - cbn zeta. destruct (post w n _) as [r|e].
    + exists (outcome_of (extract p r)); eexists. split; [reflexivity|]. split.
      * now destruct (extract p r).
      * right. do 2 eexists. split; [reflexivity | now destruct p].
    + exists (Exc e); eexists. split; [reflexivity|]. split; [discriminate|].
      right. do 2 eexists. split; [reflexivity | now destruct p].
  - exists (Exc e), []. split; [reflexivity|]. split; [discriminate | now left].
Qed.

Lemma slot_run (w : World) (p : Provider) (project_idea requirements : string)
    (n : nat) (o : Outcome pyval) (net : Log) :
  generate w p (filled project_idea requirements) n = (o, net) ->
  o <> Halt ->
  slot w p project_idea requirements n = (Val tt, slot_log w p net o).
Proof.
  intros Hgen Hlive.
  destruct p; cbn [slot generate] in *;
    unfold claude_slot, gpt_slot, deepseek_slot, try_except, bind, st_subheader,
      st_code, st_download_button, st_error, draw, emit, lift;
    rewrite render_filled;
    cbn [sends filter is_send List.length Nat.add app];
    rewrite Hgen;
    (destruct o as [[]|e|]; [..|congruence]);
    unfold slot_log; cbn [app]; rewrite <- ?app_assoc; reflexivity.
Qed.

Lemma sends_slot_log (w : World) (p : Provider) (net : Log) (o : Outcome pyval) :
  sends (slot_log w p net o) = sends net.
Proof.
  unfold slot_log.
  change (sends (Draw ?c ?x :: ?l)) with (sends l).
  rewrite sends_app, sends_slot_result. apply Nat.add_0_r.
Qed.

Lemma comparison_run (w : World) (project_idea requirements : string) (n : nat)
    (o1 o2 o3 : Outcome pyval) (net1 net2 net3 : Log) :
  generate w Claude (filled project_idea requirements) n = (o1, net1) ->
  generate w GPT4o (filled project_idea requirements) (sends net1 + n) = (o2, net2) ->
  generate w DeepSeek (filled project_idea requirements)
    (sends net2 + (sends net1 + n)) = (o3, net3) ->
  o1 <> Halt -> o2 <> Halt -> o3 <> Halt ->
  comparison_section w project_idea requirements n
  = (Val tt,
     (Draw Main (W_spinner_enter "Comparing models...")
      :: Draw Main (W_columns 3)
      :: slot_log w Claude net1 o1 ++ slot_log w GPT4o net2 o2
         ++ slot_log w DeepSeek net3 o3 ++ [Draw Main W_spinner_exit])%list).
Proof.
  intros H1 H2 H3 L1 L2 L3.
  unfold comparison_section, with_spinner, bind, draw, emit.
  change (claude_slot w) with (slot w Claude).
  change (gpt_slot w) with (slot w GPT4o).
  change (deepseek_slot w) with (slot w DeepSeek).
  cbn [sends filter is_send List.length Nat.add app].
  rewrite (slot_run w Claude _ _ n o1 net1 H1 L1).
  rewrite sends_slot_log.
  rewrite (slot_run w GPT4o _ _ _ o2 net2 H2 L2).
  rewrite sends_slot_log.
  rewrite (slot_run w DeepSeek _ _ _ o3 net3 H3 L3).
  cbn [app]. now rewrite <- !app_assoc.
Qed.

Lemma generate_section_run (w : World) (model project_idea requirements : string)
    (n : nat) (o : Outcome pyval) (net : Log) :
  truthy project_idea = true ->
  generate w (selected model)
    (filled project_idea
       (if truthy requirements then requirements else NO_EXTRA_REQUIREMENTS)) n
  = (o, net) ->
  o <> Halt ->
  generate_section w model project_idea requirements n
  = (single_end o,
     (Draw Main (W_spinner_enter "Crafting your perfect prompt...")
      :: net ++ single_result w (selected model) o ++ [Draw Main W_spinner_exit])%list).
Proof.
  intros Hidea Hgen Hlive.
  unfold generate_section. rewrite Hidea. cbn [negb].
  unfold with_spinner, bind, lift. rewrite render_filled.
  cbn [sends filter is_send List.length Nat.add app].
  unfold selected in Hgen |- *. unfold single_result, single_error.
  destruct (str_in "Claude" model); [|destruct (str_in "GPT" model)];
    cbn [generate] in Hgen;
    unfold try_except, bind, st_error, st_header, st_code, st_download_button,
      st_stop, draw, emit;
    rewrite Hgen;
    (destruct o as [[]|e|]; [..|congruence]);
    unfold lift; cbn [app sends filter is_send List.length Nat.add single_end];
    rewrite <- ?app_assoc; reflexivity.
Qed.

Lemma generate_section_empty (w : World) (model requirements : string) (n : nat) :
  generate_section w model "" requirements n
  = (Val tt, [Draw Main (W_error "Please enter a project idea.")]).
Proof. reflexivity. Qed.

(** The page as a whole: the top widgets, the button's block when the
    button was pressed, and, unless that block ended the run, the
    comparison widgets and the comparison block when its guard holds. *)
Lemma script_run (w : World) (i : Inputs) (n : nat) :
  script w i n =
  let '(o1, ev1) :=
    if in_button i
    then generate_section w (in_model i) (in_project_idea i) (in_requirements i) n
    else (Val tt, []) in
  match o1 with
  | Val _ =>
      let '(o2, ev2) :=
        if in_compare i && truthy (in_project_idea i)
        then comparison_section w (in_project_idea i) (in_requirements i) (sends ev1 + n)
        else (Val tt, []) in
      (o2, (page_top ++ ev1 ++ compare_widgets ++ ev2)%list)
  | Exc e => (Exc e, (page_top ++ ev1)%list)
  | Halt => (Halt, (page_top ++ ev1)%list)
  end.
Proof.
  unfold script, st_input, st_header, draw, emit, ret.
  unfold bind.
  cbn [sends filter is_send List.length Nat.add app].
  destruct (in_button i).
  - destruct (generate_section w _ _ _ n) as [[[]|e|] ev1]; try reflexivity.
    cbn [sends filter is_send List.length Nat.add app].
    destruct (in_compare i && truthy (in_project_idea i)).
    + destruct (comparison_section w _ _ _) as [o2 ev2]. reflexivity.
    + cbn [app]. reflexivity.
  - cbn [sends filter is_send List.length Nat.add app].
    destruct (in_compare i && truthy (in_project_idea i)).
    + destruct (comparison_section w _ _ _) as [o2 ev2]. reflexivity.
    + reflexivity.
Qed.

(** ** Empty project idea *)

(** C2: when the project idea is empty, whatever the model, the
    requirements, the button and the comparison checkbox, the run draws
    the page (with the error message if the button was pressed) and ends
    without having sent any request. *)
Theorem empty_idea_no_network
    (w : World) (model requirements : string) (button compare : bool) :
  let i := {| in_model := model; in_project_idea := "";
              in_requirements := requirements;
              in_button := button; in_compare := compare |} in
  run w i
  = (Val tt,
     (page_top
      ++ (if button then [Draw Main (W_error "Please enter a project idea.")] else [])
      ++ compare_widgets)%list)
  /\ sends (snd (run w i)) = 0
  /\ contacted (snd (run w i)) = []
  /\ filter is_net (snd (run w i)) = [].
Proof.
  intros i.
  assert (H : run w i
              = (Val tt,
                 (page_top
                  ++ (if button
                      then [Draw Main (W_error "Please enter a project idea.")]
                      else [])
                  ++ compare_widgets)%list)).
  { unfold run. rewrite script_run. subst i. cbn [in_button in_project_idea
      in_compare in_model in_requirements truthy].
    rewrite andb_false_r.
    destruct button; [rewrite generate_section_empty|]; now rewrite app_nil_r. }
  rewrite H. split; [reflexivity|]. now destruct button.
Qed.

(** ** Comparison mode *)

Lemma contacted_app (a b : Log) :
  contacted (a ++ b)%list = (contacted a ++ contacted b)%list.
Proof.
  induction a as [|[c wd|rq|r] a IH]; cbn [app contacted]; [reflexivity|..];
    now rewrite IH.
Qed.

Lemma balanced_nil : balanced [].
Proof. intros rest. reflexivity. Qed.

Lemma balanced_app (a b : Log) : balanced a -> balanced b -> balanced (a ++ b)%list.
Proof.
  intros Ha Hb rest. now rewrite <- app_assoc, Ha, Hb.
Qed.

Lemma balanced_draw (c : Container) (wd : Widget) (a : Log) :
  balanced a -> balanced (Draw c wd :: a).
Proof. intros Ha rest. exact (Ha rest). Qed.

Lemma balanced_exchange (rq : Request) (r : Result Response) :
  balanced [HttpSend rq; HttpDone r].
Proof. intros rest. reflexivity. Qed.

Lemma balanced_sequential (a : Log) : balanced a -> sequential a = true.
Proof.
  intros Ha. unfold sequential. rewrite <- (app_nil_r a). now rewrite Ha.
Qed.

Lemma balanced_slot_result (w : World) (p : Provider) (o : Outcome pyval) :
  balanced (slot_result w p o).
Proof. destruct o as [[]|e|]; intros rest; reflexivity. Qed.

Lemma contacted_slot_result (w : World) (p : Provider) (o : Outcome pyval) :
  contacted (slot_result w p o) = [].
Proof. destruct o as [[]|e|]; reflexivity. Qed.

Lemma generate_net (w : World) (p : Provider) (prompt : string) (n : nat)
    (o : Outcome pyval) (net : Log) :
  generate w p prompt n = (o, net) ->
  o <> Halt
  /\ balanced net
  /\ contacted net = (if has_secret w p then [endpoint p] else []).
Proof.
  rewrite generate_run. unfold has_secret.
  destruct (secrets w (secret_name p)) as [key|e].
  - cbn zeta. destruct (post w n _) as [r|e]; intros [= <- <-].
    + split; [now destruct (extract p r)|].
      split; [apply balanced_exchange | now destruct p].
    + split; [discriminate|].
      split; [apply balanced_exchange | now destruct p].
  - intros [= <- <-]. split; [discriminate|]. split; [apply balanced_nil | reflexivity].
Qed.

Lemma balanced_slot_log (w : World) (p : Provider) (net : Log) (o : Outcome pyval) :
  balanced net -> balanced (slot_log w p net o).
Proof.
  intros H. unfold slot_log. apply balanced_draw, balanced_app;
    [exact H | apply balanced_slot_result].
Qed.

Lemma contacted_slot_log (w : World) (p : Provider) (net : Log) (o : Outcome pyval) :
  contacted (slot_log w p net o) = contacted net.
Proof.
  unfold slot_log. cbn [contacted].
  now rewrite contacted_app, contacted_slot_result, app_nil_r.
Qed.

(** C3: in comparison mode, whatever the three calls do, each of them is
    made, ends with a value or an exception, and its slot then draws its
    own result: the code block and the download button for a text, the
    code block and the error of the download button for a value that is
    not a text, the error message for an exception.  The section itself
    always runs to its end, so a failing call never keeps a later or an
    earlier slot from being drawn. *)
Theorem comparison_slots_independent
    (w : World) (project_idea requirements : string) (n : nat) :
  exists o1 net1 o2 net2 o3 net3,
    generate w Claude (filled project_idea requirements) n = (o1, net1)
    /\ generate w GPT4o (filled project_idea requirements) (sends net1 + n)
       = (o2, net2)
    /\ generate w DeepSeek (filled project_idea requirements)
         (sends net2 + (sends net1 + n)) = (o3, net3)
    /\ o1 <> Halt /\ o2 <> Halt /\ o3 <> Halt
    /\ comparison_section w project_idea requirements n
       = (Val tt,
          (Draw Main (W_spinner_enter "Comparing models...")
           :: Draw Main (W_columns 3)
           :: slot_log w Claude net1 o1 ++ slot_log w GPT4o net2 o2
              ++ slot_log w DeepSeek net3 o3 ++ [Draw Main W_spinner_exit])%list)
    /\ incl (slot_result w Claude o1)
         (snd (comparison_section w project_idea requirements n))
    /\ incl (slot_result w GPT4o o2)
         (snd (comparison_section w project_idea requirements n))
    /\ incl (slot_result w DeepSeek o3)
         (snd (comparison_section w project_idea requirements n)).
Proof.
  destruct (generate_cases w Claude (filled project_idea requirements) n)
    as (o1 & net1 & H1 & L1 & _).
  destruct (generate_cases w GPT4o (filled project_idea requirements) (sends net1 + n))
    as (o2 & net2 & H2 & L2 & _).
  destruct (generate_cases w DeepSeek (filled project_idea requirements)
              (sends net2 + (sends net1 + n)))
    as (o3 & net3 & H3 & L3 & _).
  exists o1, net1, o2, net2, o3, net3.
  rewrite (comparison_run w _ _ n o1 o2 o3 net1 net2 net3 H1 H2 H3 L1 L2 L3).
  repeat (split; [assumption || reflexivity|]).
  cbn [snd]. unfold slot_log.
  repeat split; intros e He; do 2 right;
    repeat (rewrite ?in_app_iff; cbn [In]); tauto.
Qed.

(** C10: in comparison mode the requests go out one at a time, each only
    after the exchange before it has ended, and to the endpoints of
    Claude, GPT-4o and DeepSeek in this order (a provider whose key cannot
    be read is skipped, since its client fails before sending). *)
Theorem comparison_calls_sequential
    (w : World) (project_idea requirements : string) (n : nat) :
  exists ev,
    comparison_section w project_idea requirements n = (Val tt, ev)
    /\ sequential ev = true
    /\ contacted ev = map endpoint (filter (has_secret w) providers).
Proof.
  destruct (generate_cases w Claude (filled project_idea requirements) n)
    as (o1 & net1 & H1 & L1 & _).
  destruct (generate_cases w GPT4o (filled project_idea requirements) (sends net1 + n))
    as (o2 & net2 & H2 & L2 & _).
  destruct (generate_cases w DeepSeek (filled project_idea requirements)
              (sends net2 + (sends net1 + n)))
    as (o3 & net3 & H3 & L3 & _).
  eexists. split.
  - exact (comparison_run w _ _ n o1 o2 o3 net1 net2 net3 H1 H2 H3 L1 L2 L3).
  - destruct (generate_net _ _ _ _ _ _ H1) as (_ & B1 & C1).
    destruct (generate_net _ _ _ _ _ _ H2) as (_ & B2 & C2).
    destruct (generate_net _ _ _ _ _ _ H3) as (_ & B3 & C3).
    split.
    + apply balanced_sequential. do 2 apply balanced_draw.
      do 3 (apply balanced_app; [now apply balanced_slot_log|]).
      apply balanced_draw, balanced_nil.
    + cbn [contacted].
      rewrite !contacted_app, !contacted_slot_log, C1, C2, C3.
      unfold providers. cbn [filter].
      destruct (has_secret w Claude), (has_secret w GPT4o), (has_secret w DeepSeek);
        reflexivity.
Qed.

(** ** Every run, piece by piece

    A property of logs that holds of the empty log, of each plain widget,
    of each exchange and of each result display, and that is kept by
    concatenation, holds of the log of every run. *)
Section RunPieces.

Variable w : World.
Variable Q : Log -> Prop.

Hypothesis Q_nil : Q [].
Hypothesis Q_app : forall a b, Q a -> Q b -> Q (a ++ b)%list.
Hypothesis Q_plain : forall c wd, plain wd = true -> Q [Draw c wd].
Hypothesis Q_exchange : forall rq r, Q [HttpSend rq; HttpDone r].
Hypothesis Q_single : forall p o, Q (single_result w p o).
Hypothesis Q_slot : forall p o, Q (slot_result w p o).

Lemma Q_cons_plain (c : Container) (wd : Widget) (a : Log) :
  plain wd = true -> Q a -> Q (Draw c wd :: a).
Proof.
  intros Hp Ha. change (Q ([Draw c wd] ++ a)%list). apply Q_app; auto.
Qed.

Lemma Q_call (p : Provider) (net : Log) : call_events p net -> Q net.
Proof.
  intros [->|(rq & r & -> & _)]; [apply Q_nil | apply Q_exchange].
Qed.

Lemma Q_generate_section (model project_idea requirements : string) (n : nat) :
  Q (snd (generate_section w model project_idea requirements n)).
Proof.
  destruct project_idea as [|ch rest].
  - rewrite generate_section_empty. now apply Q_plain.
  - set (idea := String ch rest).
    destruct (generate_cases w (selected model)
                (filled idea (if truthy requirements then requirements
                              else NO_EXTRA_REQUIREMENTS)) n)
      as (o & net & Hgen & Hlive & Hnet).
    rewrite (generate_section_run w model idea requirements n o net eq_refl Hgen Hlive).
    cbn [snd]. apply Q_cons_plain; [reflexivity|].
    apply Q_app; [exact (Q_call _ _ Hnet)|].
    apply Q_app; [apply Q_single | now apply Q_plain].
Qed.

Lemma Q_slot_log (p : Provider) (net : Log) (o : Outcome pyval) :
  call_events p net -> Q (slot_log w p net o).
Proof.
  intros Hnet. unfold slot_log. apply Q_cons_plain; [reflexivity|].
  apply Q_app; [exact (Q_call _ _ Hnet) | apply Q_slot].
Qed.

Lemma Q_comparison_section (project_idea requirements : string) (n : nat) :
  Q (snd (comparison_section w project_idea requirements n)).
Proof.
  destruct (generate_cases w Claude (filled project_idea requirements) n)
    as (o1 & net1 & H1 & L1 & N1).
  destruct (generate_cases w GPT4o (filled project_idea requirements) (sends net1 + n))
    as (o2 & net2 & H2 & L2 & N2).
  destruct (generate_cases w DeepSeek (filled project_idea requirements)
              (sends net2 + (sends net1 + n)))
    as (o3 & net3 & H3 & L3 & N3).
  rewrite (comparison_run w _ _ n o1 o2 o3 net1 net2 net3 H1 H2 H3 L1 L2 L3).
  cbn [snd]. do 2 (apply Q_cons_plain; [reflexivity|]).
  apply Q_app; [now apply Q_slot_log|].
  apply Q_app; [now apply Q_slot_log|].
  apply Q_app; [now apply Q_slot_log | now apply Q_plain].
Qed.

Lemma Q_page_top : Q page_top.
Proof.
  unfold page_top. repeat (apply Q_cons_plain; [reflexivity|]). apply Q_nil.
Qed.

Lemma Q_compare_widgets : Q compare_widgets.
Proof.
  unfold compare_widgets. repeat (apply Q_cons_plain; [reflexivity|]). apply Q_nil.
Qed.

Lemma run_pieces (i : Inputs) : Q (snd (run w i)).
Proof.
  unfold run. rewrite script_run.
  assert (H1 : Q (snd (if in_button i
                       then generate_section w (in_model i) (in_project_idea i)
                              (in_requirements i) 0
                       else (Val tt, [])))).
  { destruct (in_button i); [apply Q_generate_section | apply Q_nil]. }
  destruct (if in_button i then _ else _) as [o1 ev1]. cbn [snd] in H1.
  destruct o1 as [[]|e|]; cbn [snd];
    try (apply Q_app; [apply Q_page_top | exact H1]).
  assert (H2 : Q (snd (if in_compare i && truthy (in_project_idea i)
                       then comparison_section w (in_project_idea i)
                              (in_requirements i) (sends ev1 + 0)
                       else (Val tt, [])))).
  { destruct (in_compare i && _); [apply Q_comparison_section | apply Q_nil]. }
  destruct (if in_compare i && _ then _ else _) as [o2 ev2]. cbn [snd] in *.
  apply Q_app; [apply Q_page_top|].
  apply Q_app; [exact H1|].
  apply Q_app; [apply Q_compare_widgets | exact H2].
Qed.

End RunPieces.

(** ** Display and download *)

Lemma shown_is_offered_any_start (prev : option Event) (log : Log) :
  shown_is_offered log -> shown_is_offered_from prev log.
Proof.
  destruct log as [|e rest]; [trivial|].
  intros (Hp & Hn & Hrest). repeat split; try assumption.
  destruct e as [c []| |]; try exact I.
  destruct Hp as [language Hp]. discriminate Hp.
Qed.

Lemma shown_is_offered_from_app (a b : Log) :
  forall prev,
    shown_is_offered_from prev a -> shown_is_offered b ->
    shown_is_offered_from prev (a ++ b)%list.
Proof.
  induction a as [|e a IH]; intros prev Ha Hb.
  - now apply shown_is_offered_any_start.
  - destruct Ha as (Hp & Hn & Ha). cbn [app shown_is_offered_from].
    split; [exact Hp|]. split; [|now apply IH].
    destruct a as [|e' a]; [|exact Hn].
    destruct e as [c []| |]; try exact I.
    destruct body; try exact I. contradiction.
Qed.

Lemma shown_is_offered_app (a b : Log) :
  shown_is_offered a -> shown_is_offered b -> shown_is_offered (a ++ b)%list.
Proof. apply shown_is_offered_from_app. Qed.

(** C7: in every run, in single-model mode and in each comparison slot,
    every download button stands right after a code block of the same
    place and its data is the very value the block displays, and every
    code block that displays a text is followed at once by such a button.
    Whenever a call returns a text, the code block of that text and,
    right after it, the download button with the same text are drawn: on
    the page in single-model mode, in the provider's column in comparison
    mode. *)
Theorem download_is_what_is_shown (w : World) (i : Inputs) :
  shown_is_offered (snd (run w i))
  /\ (forall model project_idea requirements n x net,
        truthy project_idea = true ->
        generate w (selected model)
          (filled project_idea
             (if truthy requirements then requirements else NO_EXTRA_REQUIREMENTS)) n
        = (Val (PyStr x), net) ->
        generate_section w model project_idea requirements n
        = (Val tt,
           (Draw Main (W_spinner_enter "Crafting your perfect prompt...")
            :: net
            ++ [ Draw Main (W_header "✅ Generated Prompt");
                 Draw Main (W_code (PyStr x) "markdown");
                 Draw Main (W_download_button "📋 Copy Prompt to Clipboard" (PyStr x)
                              "ai_prompt.md" (Some "text/markdown") None);
                 Draw Main W_spinner_exit ])%list))
  /\ (forall p project_idea requirements n x net,
        generate w p (filled project_idea requirements) n = (Val (PyStr x), net) ->
        slot w p project_idea requirements n
        = (Val tt,
           (Draw (Column (slot_column p)) (W_subheader (slot_title p))
            :: net
            ++ [ Draw (Column (slot_column p)) (W_code (PyStr x) "markdown");
                 Draw (Column (slot_column p))
                   (W_download_button "Download" (PyStr x) (slot_file p) None
                      (Some (slot_key p))) ])%list)).
Proof.
  split; [|split].
  - apply (run_pieces w shown_is_offered).
    + exact I.
    + apply shown_is_offered_app.
    + intros c wd Hp. destruct wd; try discriminate Hp; repeat split.
    + intros rq r. repeat split.
    + intros p [[]|e|]; cbn; repeat split; eauto.
    + intros p [[]|e|]; cbn; repeat split; eauto.
  - intros model idea req n x net Hidea Hgen.
    now rewrite (generate_section_run w model idea req n (Val (PyStr x)) net Hidea Hgen)
      by discriminate.
  - intros p idea req n x net Hgen.
    now rewrite (slot_run w p idea req n (Val (PyStr x)) net Hgen) by discriminate.
Qed.

Lemma download_is_what_is_shown_witness :
  generate_section (mock_world text_answer) "GPT-4o (Best for Creativity)"
    "a todo app" "" 0
  = (Val tt,
     [ Draw Main (W_spinner_enter "Crafting your perfect prompt...");
       HttpSend (request_for GPT4o "sk-test" (filled "a todo app" NO_EXTRA_REQUIREMENTS));
       HttpDone (Ok text_answer);
       Draw Main (W_header "✅ Generated Prompt");
       Draw Main (W_code (PyStr "X") "markdown");
       Draw Main (W_download_button "📋 Copy Prompt to Clipboard" (PyStr "X")
                    "ai_prompt.md" (Some "text/markdown") None);
       Draw Main W_spinner_exit ])
  /\ slot (mock_world text_answer) DeepSeek "a todo app" "" 0
     = (Val tt,
        [ Draw (Column 2) (W_subheader "DeepSeek V3");
          HttpSend (request_for DeepSeek "sk-test" (filled "a todo app" ""));
          HttpDone (Ok text_answer);
          Draw (Column 2) (W_code (PyStr "X") "markdown");
          Draw (Column 2) (W_download_button "Download" (PyStr "X") "deepseek_prompt.md"
                             None (Some "deepseek_dl")) ]).
Proof.
  destruct (download_is_what_is_shown (mock_world text_answer)
              (sample_inputs true true "")) as (_ & Hsingle & Hslot).
  split.
  - apply (Hsingle "GPT-4o (Best for Creativity)" "a todo app" "" 0 "X"
             [HttpSend (request_for GPT4o "sk-test"
                          (filled "a todo app" NO_EXTRA_REQUIREMENTS));
              HttpDone (Ok text_answer)]); reflexivity.
  - apply (Hslot DeepSeek "a todo app" "" 0 "X"
             [HttpSend (request_for DeepSeek "sk-test" (filled "a todo app" ""));
              HttpDone (Ok text_answer)]); reflexivity.
Defined.

(** C9: in every run, a download button drawn on the page itself, where
    single-model mode draws, carries the file name ai_prompt.md, and one
    drawn in a comparison column carries that column's name
    (claude_prompt.md, gpt_prompt.md, deepseek_prompt.md).  Whatever the
    model name, a single-model call that returns a text is followed by
    the button named ai_prompt.md, and a comparison call that returns a
    text by the button with its provider's name. *)
Theorem download_file_names (w : World) (i : Inputs) :
  Forall file_name_ok (snd (run w i))
  /\ (forall model project_idea requirements n x net,
        truthy project_idea = true ->
        generate w (selected model)
          (filled project_idea
             (if truthy requirements then requirements else NO_EXTRA_REQUIREMENTS)) n
        = (Val (PyStr x), net) ->
        In (Draw Main (W_download_button "📋 Copy Prompt to Clipboard" (PyStr x)
                         "ai_prompt.md" (Some "text/markdown") None))
           (snd (generate_section w model project_idea requirements n)))
  /\ (forall p project_idea requirements n x net,
        generate w p (filled project_idea requirements) n = (Val (PyStr x), net) ->
        In (Draw (Column (slot_column p))
              (W_download_button "Download" (PyStr x) (slot_file p) None
                 (Some (slot_key p))))
           (snd (slot w p project_idea requirements n))).
Proof.
  split; [|split].
  - apply (run_pieces w (Forall file_name_ok)).
    + constructor.
    + intros a b Ha Hb. apply Forall_app. now split.
    + intros c wd Hp. constructor; [|constructor].
      destruct wd; try discriminate Hp; exact I.
    + intros rq r. repeat constructor.
    + intros p [[]|e|]; repeat constructor.
    + intros p [[]|e|]; repeat constructor. now destruct p.
  - intros model idea req n x net Hidea Hgen.
    rewrite (generate_section_run w model idea req n (Val (PyStr x)) net Hidea Hgen)
      by discriminate.
    cbn [snd single_result]. right. rewrite in_app_iff. right. cbn. tauto.
  - intros p idea req n x net Hgen.
    rewrite (slot_run w p idea req n (Val (PyStr x)) net Hgen) by discriminate.
    cbn [snd]. unfold slot_log. right. rewrite in_app_iff. right. cbn. tauto.
Qed.

Lemma download_file_names_witness :
  In (Draw Main (W_download_button "📋 Copy Prompt to Clipboard" (PyStr "X")
                   "ai_prompt.md" (Some "text/markdown") None))
     (snd (generate_section (mock_world text_answer)
             "GPT-4o (Best for Creativity)" "a todo app" "" 0))
  /\ In (Draw (Column 2)
           (W_download_button "Download" (PyStr "X") "deepseek_prompt.md" None
              (Some "deepseek_dl")))
        (snd (slot (mock_world text_answer) DeepSeek "a todo app" "" 0)).
Proof.
  destruct (download_file_names (mock_world text_answer) (sample_inputs true true ""))
    as (_ & Hsingle & Hslot).
  split.
  - eapply (Hsingle "GPT-4o (Best for Creativity)" "a todo app" "" 0 "X");
      reflexivity.
  - eapply (Hslot DeepSeek "a todo app" "" 0 "X"); reflexivity.
Defined.

(** ** Single-model mode *)

(** C8: in single-model mode (button pressed, project idea given), when
    the call of the selected provider raises an exception, the run is
    halted: its log ends with the error message of that provider and the
    removal of the spinner, the comparison widgets are never drawn,
    nothing is drawn in a comparison column and no request is sent beyond
    those of the failed call. *)
Theorem single_failure_halts (w : World) (i : Inputs) (e : exn) (net : Log) :
  in_button i = true ->
  truthy (in_project_idea i) = true ->
  generate w (selected (in_model i))
    (filled (in_project_idea i)
       (if truthy (in_requirements i) then in_requirements i
        else NO_EXTRA_REQUIREMENTS)) 0
  = (Exc e, net) ->
  run w i
  = (Halt,
     (page_top
      ++ Draw Main (W_spinner_enter "Crafting your perfect prompt...")
         :: net
         ++ [Draw Main (W_error (single_error w (selected (in_model i)) e));
             Draw Main W_spinner_exit])%list)
  /\ (forall x, In x compare_widgets -> ~ In x (snd (run w i)))
  /\ (forall k wd, ~ In (Draw (Column k) wd) (snd (run w i)))
  /\ sends (snd (run w i)) = sends net.
Proof.
  intros Hbutton Hidea Hgen.
  assert (Hrun : run w i
    = (Halt,
       (page_top
        ++ Draw Main (W_spinner_enter "Crafting your perfect prompt...")
           :: net
           ++ [Draw Main (W_error (single_error w (selected (in_model i)) e));
               Draw Main W_spinner_exit])%list)).
  { unfold run. rewrite script_run, Hbutton.
    rewrite (generate_section_run w _ _ _ 0 (Exc e) net Hidea Hgen) by discriminate.
    reflexivity. }
  rewrite Hrun. cbn [snd]. split; [reflexivity|].
  destruct (generate_cases w (selected (in_model i))
              (filled (in_project_idea i)
                 (if truthy (in_requirements i) then in_requirements i
                  else NO_EXTRA_REQUIREMENTS)) 0)
    as (o' & net' & Hgen' & _ & Hnet).
  rewrite Hgen in Hgen'. injection Hgen' as <- <-.
  destruct Hnet as [->|(rq & r & -> & _)].
  - repeat split.
    + intros x Hx Hin. cbn in Hx, Hin.
      repeat (destruct Hx as [<-|Hx]; [intuition discriminate|]). exact Hx.
    + intros k wd Hin. cbn in Hin. intuition discriminate.
  - repeat split.
    + intros x Hx Hin. cbn in Hx, Hin.
      repeat (destruct Hx as [<-|Hx]; [intuition discriminate|]). exact Hx.
    + intros k wd Hin. cbn in Hin. intuition discriminate.
Qed.

Lemma single_failure_halts_witness :
  run (mock_world unauthorized) (sample_inputs true true "")
  = (Halt,
     (page_top
      ++ [ Draw Main (W_spinner_enter "Crafting your perfect prompt...");
           HttpSend (request_for GPT4o "sk-test"
                       (filled "a todo app" NO_EXTRA_REQUIREMENTS));
           HttpDone (Ok unauthorized);
           Draw Main (W_error "Error with GPT-4o API: error");
           Draw Main W_spinner_exit ])%list).
Proof.
  apply (single_failure_halts (mock_world unauthorized) (sample_inputs true true "")
           (HTTPError unauthorized)
           [HttpSend (request_for GPT4o "sk-test"
                        (filled "a todo app" NO_EXTRA_REQUIREMENTS));
            HttpDone (Ok unauthorized)]);
    reflexivity.
Defined.

(** ** The requirements sentinel *)

Lemma single_prompt_sentinel (project_idea : string) :
  single_prompt project_idea "" = Ok (filled project_idea NO_EXTRA_REQUIREMENTS).
Proof. reflexivity. Qed.

Lemma comparison_prompt_verbatim (project_idea requirements : string) :
  comparison_prompt project_idea requirements = Ok (filled project_idea requirements).
Proof. reflexivity. Qed.

(** C1 fails on the comparison path.  In one run with the button pressed,
    the comparison box ticked, the project idea [a todo app] and empty
    requirements, four requests go out: the single-model one carries the
    prompt with the sentinel in the requirements field, the three
    comparison ones carry the prompt with that field left empty, and the
    sentinel occurs nowhere in it. *)
Theorem comparison_omits_sentinel :
  prompts_sent (snd (run (mock_world text_answer) (sample_inputs true true "")))
  = [ Ok (PyStr (filled "a todo app" NO_EXTRA_REQUIREMENTS));
      Ok (PyStr (filled "a todo app" ""));
      Ok (PyStr (filled "a todo app" ""));
      Ok (PyStr (filled "a todo app" "")) ]
  /\ str_in NO_EXTRA_REQUIREMENTS (filled "a todo app" NO_EXTRA_REQUIREMENTS) = true
  /\ str_in NO_EXTRA_REQUIREMENTS (filled "a todo app" "") = false
  /\ ~ contains (filled "a todo app" "") NO_EXTRA_REQUIREMENTS.
Proof.
  split; [vm_compute; reflexivity|].
  split; [vm_compute; reflexivity|].
  assert (H : str_in NO_EXTRA_REQUIREMENTS (filled "a todo app" "") = false)
    by (vm_compute; reflexivity).
  split; [exact H|].
  intros Hc. apply str_in_contains in Hc. congruence.
Qed.

(** ** Sample runs *)

Example comparison_with_claude_down :
  comparison_section claude_down "a todo app" "" 0
  = (Val tt,
     [ Draw Main (W_spinner_enter "Comparing models...");
       Draw Main (W_columns 3);
       Draw (Column 0) (W_subheader "Claude 3.5 Sonnet");
       HttpSend (request_for Claude "sk-test" (filled "a todo app" ""));
       HttpDone (Ok unauthorized);
       Draw (Column 0) (W_error "Claude Error: 401 Client Error");
       Draw (Column 1) (W_subheader "GPT-4o");
       HttpSend (request_for GPT4o "sk-test" (filled "a todo app" ""));
       HttpDone (Ok text_answer);
       Draw (Column 1) (W_code (PyStr "X") "markdown");
       Draw (Column 1)
         (W_download_button "Download" (PyStr "X") "gpt_prompt.md" None (Some "gpt_dl"));
       Draw (Column 2) (W_subheader "DeepSeek V3");
       HttpSend (request_for DeepSeek "sk-test" (filled "a todo app" ""));
       HttpDone (Ok text_answer);
       Draw (Column 2) (W_code (PyStr "X") "markdown");
       Draw (Column 2)
         (W_download_button "Download" (PyStr "X") "deepseek_prompt.md" None
            (Some "deepseek_dl"));
       Draw Main W_spinner_exit ]).
Proof. vm_compute. reflexivity. Qed.

Example selected_options :
  map selected model_options = [Claude; GPT4o; DeepSeek].
Proof. reflexivity. Qed.

Example format_escapes : format "a{{b}}c{x}" [("x", "1")] = Ok "a{b}c1".
Proof. reflexivity. Qed.

Example format_unknown_field : format "a{y}" [("x", "1")] = Raise (KeyError (PyStr "y")).
Proof. reflexivity. Qed.

Example getitem_string_for_list :
  follow (PyDict [("content", PyStr "abc")]) (answer_path Claude) = Raise TypeError.
Proof. reflexivity. Qed.

Example getitem_empty_choices :
  follow (PyDict [("choices", PyList [])]) (answer_path GPT4o) = Raise IndexError.
Proof. reflexivity. Qed.

Example getitem_missing_field :
  follow (PyDict [("error", PyStr "overloaded")]) (answer_path Claude)
  = Raise (KeyError (PyStr "content")).
Proof. reflexivity. Qed.

(** * Further properties of the script *)

(** ** The page at rest *)

(** X1: with the button not pressed and the comparison box not ticked, a
    run ends normally and its log is the top widgets followed by the
    comparison widgets and nothing else: no request is sent, no spinner,
    result or error is drawn, whatever the texts typed and whatever the
    keys and the network are. *)
Theorem idle_page (w : World) (i : Inputs) :
  in_button i = false ->
  in_compare i = false ->
  run w i = (Val tt, (page_top ++ compare_widgets)%list).
Proof.
  intros Hb Hc. unfold run. rewrite script_run, Hb, Hc. reflexivity.
Qed.

Lemma idle_page_witness :
  run no_keys (sample_inputs false false "use SQLAlchemy")
  = (Val tt, (page_top ++ compare_widgets)%list).
Proof. apply (idle_page no_keys (sample_inputs false false "use SQLAlchemy")); reflexivity. Defined.

(** ** How a run ends *)

Lemma comparison_completes (w : World) (project_idea requirements : string) (n : nat) :
  fst (comparison_section w project_idea requirements n) = Val tt.
Proof.
  destruct (generate_cases w Claude (filled project_idea requirements) n)
    as (o1 & net1 & H1 & L1 & _).
  destruct (generate_cases w GPT4o (filled project_idea requirements) (sends net1 + n))
    as (o2 & net2 & H2 & L2 & _).
  destruct (generate_cases w DeepSeek (filled project_idea requirements)
              (sends net2 + (sends net1 + n)))
    as (o3 & net3 & H3 & L3 & _).
  now rewrite (comparison_run w _ _ n o1 o2 o3 net1 net2 net3 H1 H2 H3 L1 L2 L3).
Qed.

Lemma truthy_empty (s : string) : truthy s = false -> s = "".
Proof. now destruct s. Qed.

Lemma generate_section_outcome (w : World) (model project_idea requirements : string)
    (n : nat) :
  fst (generate_section w model project_idea requirements n)
  = if truthy project_idea
    then single_end (fst (generate w (selected model)
                            (filled project_idea
                               (requirements_or_sentinel requirements)) n))
    else Val tt.
Proof.
  destruct (truthy project_idea) eqn:Hidea.
  - destruct (generate_cases w (selected model)
                (filled project_idea (requirements_or_sentinel requirements)) n)
      as (o & net & Hgen & Hlive & _).
    rewrite (generate_section_run w model project_idea requirements n o net Hidea Hgen Hlive).
    now rewrite Hgen.
  - apply truthy_empty in Hidea. subst. now rewrite generate_section_empty.
Qed.

Lemma run_end (w : World) (i : Inputs) :
  fst (run w i)
  = if in_button i && truthy (in_project_idea i)
    then single_end (fst (generate w (selected (in_model i))
                            (filled (in_project_idea i)
                               (requirements_or_sentinel (in_requirements i))) 0))
    else Val tt.
Proof.
  unfold run. rewrite script_run.
  pose proof (generate_section_outcome w (in_model i) (in_project_idea i)
                (in_requirements i) 0) as Hsec.
  assert (Hcmp : forall n (ev1 : Log),
             fst (let '(o2, ev2) :=
                    if in_compare i && truthy (in_project_idea i)
                    then comparison_section w (in_project_idea i) (in_requirements i) n
                    else (Val tt, []) in
                  (o2, (page_top ++ ev1 ++ compare_widgets ++ ev2)%list)) = Val tt).
  { intros n ev1.
    pose proof (comparison_completes w (in_project_idea i) (in_requirements i) n) as Hc.
    destruct (in_compare i && _); [|reflexivity].
    destruct (comparison_section w _ _ n) as [o2 ev2]. exact Hc. }
  destruct (in_button i); cbn [andb].
  - destruct (generate_section w _ _ _ 0) as [o1 ev1]. cbn [fst] in Hsec.
    rewrite <- Hsec. destruct o1 as [[]|e|]; [apply Hcmp | reflexivity..].
  - rewrite Hcmp. reflexivity.
Qed.

(** X2: how a run ends.  It ends normally unless the button was pressed
    and a project idea was given.  In that case it is halted by
    [st.stop()] exactly when the call of the selected provider raised an
    exception, and it ends with an uncaught exception exactly when that
    call returned a value that is not a text: the exception is the one
    [st.download_button] raises on that value, outside every [try].
    Comparison mode never ends a run early. *)
Theorem run_outcome (w : World) (i : Inputs) :
  let call := fst (generate w (selected (in_model i))
                     (filled (in_project_idea i)
                        (requirements_or_sentinel (in_requirements i))) 0) in
  let single := in_button i && truthy (in_project_idea i) in
  (fst (run w i) = Val tt <->
   single = false \/ exists x, call = Val (PyStr x))
  /\ (fst (run w i) = Halt <-> single = true /\ exists e, call = Exc e)
  /\ (forall e, fst (run w i) = Exc e <->
                single = true
                /\ exists v, call = Val v /\ is_text v = false /\ e = download_error v).
Proof.
  intros call single. rewrite run_end. fold call. fold single.
  assert (Hlive : call <> Halt).
  { subst call.
    destruct (generate_cases w (selected (in_model i))
                (filled (in_project_idea i)
                   (requirements_or_sentinel (in_requirements i))) 0)
      as (o & net & Hgen & Hlive & _).
    now rewrite Hgen. }
  destruct single.
  - destruct call as [v|e|]; [| |congruence].
    + assert (Hv : (exists x, v = PyStr x /\ single_end (Val v) = Val tt)
                   \/ (is_text v = false
                       /\ single_end (Val v) = Exc (download_error v))).
      { destruct v; try (right; split; reflexivity). left. now eexists. }
      destruct Hv as [(x & -> & ->)|(Ht & ->)].
      * split; [|split; [|intros e']]; split; try discriminate.
        -- intros _. right. now exists x.
        -- reflexivity.
        -- intros (_ & e0 & He0). discriminate He0.
        -- intros (_ & v' & Hv' & Ht & _). injection Hv' as <-. discriminate Ht.
      * split; [|split; [|intros e']]; split; try discriminate.
        -- intros [Hf|[x Hx]]; [discriminate Hf|].
           injection Hx as ->. discriminate Ht.
        -- intros (_ & e0 & He0). discriminate He0.
        -- intros He. assert (e' = download_error v) by congruence. subst e'.
           split; [reflexivity|]. now exists v.
        -- intros (_ & v' & Hv' & _ & ->). injection Hv' as <-. reflexivity.
    + cbn [single_end]. split; [|split; [|intros e']]; split; try discriminate.
      * intros [Hf|[x Hx]]; discriminate.
      * intros _. split; [reflexivity | now exists e].
      * reflexivity.
      * intros (_ & v' & Hv' & _). discriminate Hv'.
  - split; [|split; [|intros e']]; split; try discriminate.
    + intros _. now left.
    + reflexivity.
    + intros (Hf & _). discriminate Hf.
    + intros (Hf & _). discriminate Hf.
Qed.

(** ** The requests of a run *)

Lemma contacted_generate (w : World) (p : Provider) (prompt : string) (n : nat) :
  contacted (snd (generate w p prompt n))
  = if has_secret w p then [endpoint p] else [].
Proof.
  destruct (generate w p prompt n) as [o net] eqn:Hgen.
  now destruct (generate_net _ _ _ _ _ _ Hgen) as (_ & _ & H).
Qed.

Lemma contacted_generate_section (w : World) (model project_idea requirements : string)
    (n : nat) :
  contacted (snd (generate_section w model project_idea requirements n))
  = if truthy project_idea && has_secret w (selected model)
    then [endpoint (selected model)] else [].
Proof.
  destruct (truthy project_idea) eqn:Hidea.
  - pose proof (contacted_generate w (selected model)
                  (filled project_idea (requirements_or_sentinel requirements)) n) as Hc.
    destruct (generate_cases w (selected model)
                (filled project_idea (requirements_or_sentinel requirements)) n)
      as (o & net & Hgen & Hlive & _).
    rewrite (generate_section_run w model project_idea requirements n o net Hidea Hgen Hlive).
    rewrite Hgen in Hc. cbn [snd contacted andb] in Hc |- *.
    rewrite contacted_app, Hc.
    destruct o as [[]|e|]; cbn; now rewrite app_nil_r.
  - apply truthy_empty in Hidea. subst. now rewrite generate_section_empty.
Qed.

Lemma contacted_comparison_section (w : World) (project_idea requirements : string)
    (n : nat) :
  contacted (snd (comparison_section w project_idea requirements n))
  = map endpoint (filter (has_secret w) providers).
Proof.
  destruct (generate_cases w Claude (filled project_idea requirements) n)
    as (o1 & net1 & H1 & L1 & _).
  destruct (generate_cases w GPT4o (filled project_idea requirements) (sends net1 + n))
    as (o2 & net2 & H2 & L2 & _).
  destruct (generate_cases w DeepSeek (filled project_idea requirements)
              (sends net2 + (sends net1 + n)))
    as (o3 & net3 & H3 & L3 & _).
  rewrite (comparison_run w _ _ n o1 o2 o3 net1 net2 net3 H1 H2 H3 L1 L2 L3).
  destruct (generate_net _ _ _ _ _ _ H1) as (_ & _ & C1).
  destruct (generate_net _ _ _ _ _ _ H2) as (_ & _ & C2).
  destruct (generate_net _ _ _ _ _ _ H3) as (_ & _ & C3).
  cbn [snd contacted].
  rewrite !contacted_app, !contacted_slot_log, C1, C2, C3.
  unfold providers. cbn [filter].
  destruct (has_secret w Claude), (has_secret w GPT4o), (has_secret w DeepSeek);
    reflexivity.
Qed.

Lemma contacted_page_top : contacted page_top = [].
Proof. reflexivity. Qed.

(** X4: the endpoints a run contacts, in order: first the one of the
    selected provider, once, when the button was pressed, a project idea
    was given and the provider's key can be read; then, when the box is
    ticked, a project idea was given and the run ran to its end (it was
    neither halted nor ended by an exception of the button's block),
    those of Claude, GPT-4o and DeepSeek, each once, skipping the
    providers whose key cannot be read.  Nothing else is contacted and
    nothing is retried, so a run sends at most four requests. *)
Theorem run_contacted (w : World) (i : Inputs) :
  contacted (snd (run w i))
  = ((if in_button i && truthy (in_project_idea i)
         && has_secret w (selected (in_model i))
      then [endpoint (selected (in_model i))] else [])
     ++ (if in_compare i && truthy (in_project_idea i) && completed (fst (run w i))
         then map endpoint (filter (has_secret w) providers) else []))%list
  /\ List.length (contacted (snd (run w i))) <= 4.
Proof.
  assert (H : contacted (snd (run w i))
    = ((if in_button i && truthy (in_project_idea i)
           && has_secret w (selected (in_model i))
        then [endpoint (selected (in_model i))] else [])
       ++ (if in_compare i && truthy (in_project_idea i) && completed (fst (run w i))
           then map endpoint (filter (has_secret w) providers) else []))%list).
  { unfold run. rewrite script_run.
    pose proof (contacted_generate_section w (in_model i) (in_project_idea i)
                  (in_requirements i) 0) as Hs.
    assert (Hsec : contacted
              (snd (if in_button i
                    then generate_section w (in_model i) (in_project_idea i)
                           (in_requirements i) 0
                    else (Val tt, [])))
            = (if in_button i && truthy (in_project_idea i)
                  && has_secret w (selected (in_model i))
               then [endpoint (selected (in_model i))] else [])).
    { destruct (in_button i); [exact Hs | reflexivity]. }
    destruct (if in_button i then _ else _) as [o1 ev1].
    cbn [snd fst] in Hsec. rewrite <- Hsec.
    destruct o1 as [[]|e|].
    - pose proof (contacted_comparison_section w (in_project_idea i)
                    (in_requirements i) (sends ev1 + 0)) as Hc.
      pose proof (comparison_completes w (in_project_idea i)
                    (in_requirements i) (sends ev1 + 0)) as Hd.
      destruct (in_compare i && truthy (in_project_idea i)).
      + destruct (comparison_section w _ _ _) as [o2 ev2]. cbn [fst snd] in *.
        subst o2. cbn [completed andb].
        now rewrite !contacted_app, contacted_page_top, Hc.
      + cbn [fst snd completed andb].
        now rewrite !contacted_app, contacted_page_top.
    - cbn [fst snd completed]. rewrite andb_false_r, app_nil_r.
      now rewrite contacted_app, contacted_page_top.
    - cbn [fst snd completed]. rewrite andb_false_r, app_nil_r.
      now rewrite contacted_app, contacted_page_top.
  }
  split; [exact H|]. rewrite H, length_app.
  assert (L1 : List.length
                 (if in_button i && truthy (in_project_idea i)
                     && has_secret w (selected (in_model i))
                  then [endpoint (selected (in_model i))] else []) <= 1)
    by (destruct (in_button i && truthy (in_project_idea i)
                 && has_secret w (selected (in_model i))); cbn [List.length]; lia).
  assert (L2 : List.length
                 (if in_compare i && truthy (in_project_idea i)
                     && completed (fst (run w i))
                  then map endpoint (filter (has_secret w) providers) else []) <= 3).
  { destruct (in_compare i && truthy (in_project_idea i)
               && completed (fst (run w i))); [|cbn [List.length]; lia].
    rewrite length_map. unfold providers. cbn [filter].
    destruct (has_secret w Claude), (has_secret w GPT4o), (has_secret w DeepSeek);
      cbn; lia. }
  lia.
Qed.

(** A property of events that holds of every widget and of the events of
    every call made with the template filled with the project idea and
    with the requirements or the sentinel holds of the whole run. *)
Section RunRequests.

Variable w : World.
Variable i : Inputs.
Variable P : Event -> Prop.

Hypothesis P_draw : forall c wd, P (Draw c wd).
Hypothesis P_call : forall p r n,
  r = in_requirements i \/ r = NO_EXTRA_REQUIREMENTS ->
  Forall P (snd (generate w p (filled (in_project_idea i) r) n)).

Lemma P_single_result (p : Provider) (o : Outcome pyval) :
  Forall P (single_result w p o).
Proof. destruct o as [[]|e|]; repeat (constructor; [apply P_draw|]); constructor. Qed.

Lemma P_slot_result (p : Provider) (o : Outcome pyval) :
  Forall P (slot_result w p o).
Proof. destruct o as [[]|e|]; repeat (constructor; [apply P_draw|]); constructor. Qed.

Lemma P_generate_section (n : nat) :
  Forall P (snd (generate_section w (in_model i) (in_project_idea i)
                   (in_requirements i) n)).
Proof.
  destruct (truthy (in_project_idea i)) eqn:Hidea.
  - assert (Hr : requirements_or_sentinel (in_requirements i) = in_requirements i
                 \/ requirements_or_sentinel (in_requirements i) = NO_EXTRA_REQUIREMENTS)
      by (unfold requirements_or_sentinel;
          destruct (truthy (in_requirements i)); [left | right]; reflexivity).
    pose proof (P_call (selected (in_model i)) _ n Hr) as Hcall.
    destruct (generate_cases w (selected (in_model i))
                (filled (in_project_idea i)
                   (requirements_or_sentinel (in_requirements i))) n)
      as (o & net & Hgen & Hlive & _).
    rewrite (generate_section_run w _ _ _ n o net Hidea Hgen Hlive).
    rewrite Hgen in Hcall. cbn [snd] in *.
    constructor; [apply P_draw|].
    apply Forall_app; split; [exact Hcall|].
    apply Forall_app; split; [apply P_single_result|].
    constructor; [apply P_draw | constructor].
  - apply truthy_empty in Hidea. rewrite Hidea, generate_section_empty.
    constructor; [apply P_draw | constructor].
Qed.

Lemma P_slot_log (p : Provider) (n : nat) (o : Outcome pyval) (net : Log) :
  generate w p (filled (in_project_idea i) (in_requirements i)) n = (o, net) ->
  Forall P (slot_log w p net o).
Proof.
  intros Hgen.
  pose proof (P_call p (in_requirements i) n (or_introl eq_refl)) as Hcall.
  rewrite Hgen in Hcall. unfold slot_log.
  constructor; [apply P_draw|].
  apply Forall_app; split; [exact Hcall | apply P_slot_result].
Qed.

Lemma P_comparison_section (n : nat) :
  Forall P (snd (comparison_section w (in_project_idea i) (in_requirements i) n)).
Proof.
  destruct (generate_cases w Claude
              (filled (in_project_idea i) (in_requirements i)) n)
    as (o1 & net1 & H1 & L1 & _).
  destruct (generate_cases w GPT4o
              (filled (in_project_idea i) (in_requirements i)) (sends net1 + n))
    as (o2 & net2 & H2 & L2 & _).
  destruct (generate_cases w DeepSeek
              (filled (in_project_idea i) (in_requirements i))
              (sends net2 + (sends net1 + n)))
    as (o3 & net3 & H3 & L3 & _).
  rewrite (comparison_run w _ _ n o1 o2 o3 net1 net2 net3 H1 H2 H3 L1 L2 L3).
  cbn [snd]. do 2 (constructor; [apply P_draw|]).
  apply Forall_app; split; [exact (P_slot_log _ _ _ _ H1)|].
  apply Forall_app; split; [exact (P_slot_log _ _ _ _ H2)|].
  apply Forall_app; split; [exact (P_slot_log _ _ _ _ H3)|].
  constructor; [apply P_draw | constructor].
Qed.

Lemma run_requests : Forall P (snd (run w i)).
Proof.
  unfold run. rewrite script_run.
  assert (Htop : Forall P page_top) by (repeat constructor; apply P_draw).
  assert (Hcw : Forall P compare_widgets) by (repeat constructor; apply P_draw).
  assert (H1 : Forall P
                 (snd (if in_button i
                       then generate_section w (in_model i) (in_project_idea i)
                              (in_requirements i) 0
                       else (Val tt, [])))).
  { destruct (in_button i); [apply P_generate_section | constructor]. }
  destruct (if in_button i then _ else _) as [o1 ev1]. cbn [snd] in H1.
  destruct o1 as [[]|e|]; cbn [snd];
    try (apply Forall_app; split; assumption).
  assert (H2 : Forall P
                 (snd (if in_compare i && truthy (in_project_idea i)
                       then comparison_section w (in_project_idea i)
                              (in_requirements i) (sends ev1 + 0)
                       else (Val tt, [])))).
  { destruct (in_compare i && _); [apply P_comparison_section | constructor]. }
  destruct (if in_compare i && _ then _ else _) as [o2 ev2]. cbn [snd] in *.
  repeat (apply Forall_app; split; try assumption).
Qed.

End RunRequests.

(** X5: every request of every run is the request one of the three
    clients builds: it goes to that provider's endpoint, carries that
    provider's own key and no other, names that provider's model, and its
    one user message is the template filled with the project idea and
    with either the requirements as typed or the sentinel.  No key is
    ever sent to another provider's endpoint. *)
Theorem run_requests_addressed (w : World) (i : Inputs) :
  Forall (addressed w i) (snd (run w i)).
Proof.
  apply run_requests.
  - intros c wd. exact I.
  - intros p r n Hr. rewrite generate_run.
    destruct (secrets w (secret_name p)) as [key|e] eqn:Hkey; [|constructor].
    cbn zeta.
    destruct (post w n _) as [resp|e]; cbn [snd];
      (constructor; [now exists p, key, r | repeat constructor]).
Qed.

(** ** Failures before an answer *)

(** X6: a client whose key cannot be read raises the store's exception
    before it sends anything.  In comparison mode the slot of that
    provider then holds its title and the error message and nothing
    else. *)
Theorem missing_key (w : World) (p : Provider) (e : exn) :
  secrets w (secret_name p) = Raise e ->
  (forall prompt n, generate w p prompt n = (Exc e, []))
  /\ (forall project_idea requirements n,
        slot w p project_idea requirements n
        = (Val tt,
           [ Draw (Column (slot_column p)) (W_subheader (slot_title p));
             Draw (Column (slot_column p)) (W_error (slot_error w p e)) ])).
Proof.
  intros Hkey.
  assert (H : forall prompt n, generate w p prompt n = (Exc e, []))
    by (intros; now rewrite generate_run, Hkey).
  split; [exact H|].
  intros idea req n.
  now rewrite (slot_run w p idea req n (Exc e) [] (H _ _)) by discriminate.
Qed.

Lemma missing_key_witness :
  slot no_keys GPT4o "a todo app" "" 0
  = (Val tt,
     [ Draw (Column 1) (W_subheader "GPT-4o");
       Draw (Column 1) (W_error "GPT-4o Error: OPENAI_API_KEY") ]).
Proof.
  apply (missing_key no_keys GPT4o (SecretError "OPENAI_API_KEY")). reflexivity.
Defined.

(** X7: when the key is read and [requests.post] itself raises, the
    client raises that exception after the one attempt, without looking
    at any response and without a second attempt; the comparison slot
    shows the error under its title. *)
Theorem transport_failure
    (w : World) (p : Provider) (prompt : string) (n : nat) (key : string) (e : exn) :
  secrets w (secret_name p) = Ok key ->
  post w n (request_for p key prompt) = Raise e ->
  generate w p prompt n
  = (Exc e, [HttpSend (request_for p key prompt); HttpDone (Raise e)])
  /\ (forall project_idea requirements,
        prompt = filled project_idea requirements ->
        slot w p project_idea requirements n
        = (Val tt,
           [ Draw (Column (slot_column p)) (W_subheader (slot_title p));
             HttpSend (request_for p key prompt);
             HttpDone (Raise e);
             Draw (Column (slot_column p)) (W_error (slot_error w p e)) ])).
Proof.
  intros Hkey Hpost.
  assert (H : generate w p prompt n
              = (Exc e, [HttpSend (request_for p key prompt); HttpDone (Raise e)])).
  { rewrite generate_run, Hkey. cbn zeta. now rewrite Hpost. }
  split; [exact H|].
  intros idea req ->.
  now rewrite (slot_run w p idea req n _ _ H) by discriminate.
Qed.

Lemma transport_failure_witness :
  generate network_down Claude "prompt" 0
  = (Exc (TransportError "connection refused"),
     [ HttpSend (request_for Claude "sk-test" "prompt");
       HttpDone (Raise (TransportError "connection refused")) ]).
Proof.
  apply (transport_failure network_down Claude "prompt" 0 "sk-test"
           (TransportError "connection refused")); reflexivity.
Defined.

(** ** What the clients read of an answer *)

Lemma answer_path_split (p : Provider) :
  answer_path p = PyStr (list_key p) :: PyInt 0 :: item_path p.
Proof. now destruct p. Qed.

(** X8: of a decoded answer the clients read the list under content
    (Claude) or choices (GPT-4o, DeepSeek), its first element only, and
    in it the text (Claude) or message.content (the others): further
    elements of the list and all other fields of the body are ignored,
    and the value found is returned. *)
Theorem first_item_only
    (w : World) (p : Provider) (prompt : string) (n : nat) (key : string)
    (r : Response) (d : list (string * pyval)) (item : pyval) (rest : list pyval)
    (x : pyval) :
  secrets w (secret_name p) = Ok key ->
  post w n (request_for p key prompt) = Ok r ->
  is_4xx_5xx r = false ->
  json r = Some (PyDict d) ->
  assoc (list_key p) d = Some (PyList (item :: rest)) ->
  follow item (item_path p) = Ok x ->
  generate w p prompt n
  = (Val x, [HttpSend (request_for p key prompt); HttpDone (Ok r)]).
Proof.
  intros Hkey Hpost Hstatus Hjson Hlist Hitem.
  rewrite generate_run, Hkey. cbn zeta. rewrite Hpost.
  unfold extract, response_json.
  rewrite (raise_for_status_passes _ Hstatus), Hjson, answer_path_split.
  cbn [follow getitem]. rewrite Hlist. cbn. now rewrite Hitem.
Qed.

Lemma first_item_only_witness :
  generate (mock_world two_choices) DeepSeek "prompt" 0
  = (Val (PyStr "first"),
     [HttpSend (request_for DeepSeek "sk-test" "prompt"); HttpDone (Ok two_choices)]).
Proof.
  eapply (first_item_only (mock_world two_choices) DeepSeek "prompt" 0 "sk-test"
            two_choices); reflexivity.
Defined.

(** X9: an answer that passes the status check and whose content or
    choices list is empty makes the client raise [IndexError]; nothing is
    returned. *)
Theorem empty_list_raises
    (w : World) (p : Provider) (prompt : string) (n : nat) (key : string)
    (r : Response) (d : list (string * pyval)) :
  secrets w (secret_name p) = Ok key ->
  post w n (request_for p key prompt) = Ok r ->
  is_4xx_5xx r = false ->
  json r = Some (PyDict d) ->
  assoc (list_key p) d = Some (PyList []) ->
  generate w p prompt n
  = (Exc IndexError, [HttpSend (request_for p key prompt); HttpDone (Ok r)]).
Proof.
  intros Hkey Hpost Hstatus Hjson Hlist.
  rewrite generate_run, Hkey. cbn zeta. rewrite Hpost.
  unfold extract, response_json.
  rewrite (raise_for_status_passes _ Hstatus), Hjson, answer_path_split.
  cbn [follow getitem]. now rewrite Hlist.
Qed.

Lemma empty_list_raises_witness :
  generate (mock_world no_choices) GPT4o "prompt" 0
  = (Exc IndexError,
     [HttpSend (request_for GPT4o "sk-test" "prompt"); HttpDone (Ok no_choices)]).
Proof.
  eapply (empty_list_raises (mock_world no_choices) GPT4o "prompt" 0 "sk-test"
            no_choices); reflexivity.
Defined.

(** ** Rendering *)

(** X10: for all texts, whatever characters they hold (braces and field
    names included), [format] on the template succeeds and its result is
    the template's text before the first field, the project idea as
    typed, the text between the fields, the requirements as typed, and
    the text after the second field: the inputs are never read as format
    syntax and nothing of the template is lost. *)
Theorem render_inserts_verbatim (project_idea requirements : string) :
  render project_idea requirements
  = Ok (prompt_head ++ project_idea ++ prompt_mid ++ requirements ++ prompt_tail)
  /\ META_PROMPT_TEMPLATE
     = prompt_head ++ "{project_idea}" ++ prompt_mid ++ "{requirements}" ++ prompt_tail.
Proof. split; reflexivity. Qed.

(** ** Single-model mode, the call succeeding *)

(** X11: in single-model mode with the comparison box not ticked, when
    the call of the selected provider returns a text, the run ends
    normally and shows, inside the spinner and after the exchange, the
    Generated Prompt header, the code block of the text and its download
    button, then the comparison widgets. *)
Theorem single_success (w : World) (i : Inputs) (x : string) (net : Log) :
  in_button i = true ->
  in_compare i = false ->
  truthy (in_project_idea i) = true ->
  generate w (selected (in_model i))
    (filled (in_project_idea i) (requirements_or_sentinel (in_requirements i))) 0
  = (Val (PyStr x), net) ->
  run w i
  = (Val tt,
     (page_top
      ++ Draw Main (W_spinner_enter "Crafting your perfect prompt...")
         :: net
         ++ [ Draw Main (W_header "✅ Generated Prompt");
              Draw Main (W_code (PyStr x) "markdown");
              Draw Main (W_download_button "📋 Copy Prompt to Clipboard" (PyStr x)
                           "ai_prompt.md" (Some "text/markdown") None);
              Draw Main W_spinner_exit ]
         ++ compare_widgets)%list).
Proof.
  intros Hb Hc Hidea Hgen.
  unfold run. rewrite script_run, Hb, Hc.
  rewrite (generate_section_run w _ _ _ 0 (Val (PyStr x)) net Hidea Hgen) by discriminate.
  cbn [andb single_result single_end app]. rewrite app_nil_r.
  f_equal. f_equal. cbn [app]. f_equal. now rewrite <- app_assoc.
Qed.

Lemma single_success_witness :
  run (mock_world text_answer) (sample_inputs true false "")
  = (Val tt,
     (page_top
      ++ [ Draw Main (W_spinner_enter "Crafting your perfect prompt...");
           HttpSend (request_for GPT4o "sk-test"
                       (filled "a todo app" NO_EXTRA_REQUIREMENTS));
           HttpDone (Ok text_answer);
           Draw Main (W_header "✅ Generated Prompt");
           Draw Main (W_code (PyStr "X") "markdown");
           Draw Main (W_download_button "📋 Copy Prompt to Clipboard" (PyStr "X")
                        "ai_prompt.md" (Some "text/markdown") None);
           Draw Main W_spinner_exit ]
      ++ compare_widgets)%list).
Proof.
  apply (single_success (mock_world text_answer) (sample_inputs true false "")
           "X"
           [HttpSend (request_for GPT4o "sk-test"
                        (filled "a todo app" NO_EXTRA_REQUIREMENTS));
            HttpDone (Ok text_answer)]); reflexivity.
Defined.

(** ** The prompts of comparison mode *)

Lemma prompts_sent_app (a b : Log) :
  prompts_sent (a ++ b)%list = (prompts_sent a ++ prompts_sent b)%list.
Proof.
  induction a as [|[c wd|rq|r] a IH]; cbn [app prompts_sent]; [reflexivity|..];
    now rewrite IH.
Qed.

Lemma prompts_sent_slot_log (w : World) (p : Provider) (net : Log) (o : Outcome pyval) :
  prompts_sent (slot_log w p net o) = prompts_sent net.
Proof.
  unfold slot_log. cbn [prompts_sent]. rewrite prompts_sent_app.
  destruct o as [[]|e|]; cbn; now rewrite app_nil_r.
Qed.

Lemma prompts_sent_generate (w : World) (p : Provider) (prompt : string) (n : nat) :
  prompts_sent (snd (generate w p prompt n))
  = if has_secret w p then [Ok (PyStr prompt)] else [].
Proof.
  rewrite generate_run. unfold has_secret.
  destruct (secrets w (secret_name p)) as [key|e]; [|reflexivity].
  cbn zeta. destruct (post w n _) as [r|e]; now destruct p.
Qed.

(** X12: in comparison mode every request carries, as the content of its
    user message, the same prompt: the template filled with the project
    idea and with the requirements exactly as typed, one copy for each
    provider whose key can be read. *)
Theorem comparison_same_prompt
    (w : World) (project_idea requirements : string) (n : nat) :
  prompts_sent (snd (comparison_section w project_idea requirements n))
  = repeat (Ok (PyStr (filled project_idea requirements)))
      (List.length (filter (has_secret w) providers)).
Proof.
  pose proof (prompts_sent_generate w Claude (filled project_idea requirements) n) as P1.
  destruct (generate_cases w Claude (filled project_idea requirements) n)
    as (o1 & net1 & H1 & L1 & _).
  pose proof (prompts_sent_generate w GPT4o (filled project_idea requirements)
                (sends net1 + n)) as P2.
  destruct (generate_cases w GPT4o (filled project_idea requirements) (sends net1 + n))
    as (o2 & net2 & H2 & L2 & _).
  pose proof (prompts_sent_generate w DeepSeek (filled project_idea requirements)
                (sends net2 + (sends net1 + n))) as P3.
  destruct (generate_cases w DeepSeek (filled project_idea requirements)
              (sends net2 + (sends net1 + n)))
    as (o3 & net3 & H3 & L3 & _).
  rewrite (comparison_run w _ _ n o1 o2 o3 net1 net2 net3 H1 H2 H3 L1 L2 L3).
  rewrite H1 in P1. rewrite H2 in P2. rewrite H3 in P3. cbn [snd] in *.
  cbn [prompts_sent].
  rewrite !prompts_sent_app, !prompts_sent_slot_log, P1, P2, P3.
  unfold providers. cbn [filter].
  destruct (has_secret w Claude), (has_secret w GPT4o), (has_secret w DeepSeek);
    reflexivity.
Qed.

(** ** The model selector *)

(** X13: each label the selector offers reaches the client it names: the
    first the Claude client, the second the GPT-4o client, the third the
    DeepSeek client.  No label contains the marker of a branch tested
    before its own. *)
Theorem options_dispatch (k : nat) (label : string) :
  nth_error model_options k = Some label ->
  nth_error providers k = Some (selected label).
Proof.
  destruct k as [|[|[|k]]]; cbn [nth_error model_options].
  - now intros [= <-].
  - now intros [= <-].
  - now intros [= <-].
  - destruct k; discriminate.
Qed.

Lemma options_dispatch_witness :
  nth_error providers 2 = Some (selected "DeepSeek V3 (Best for Syntax)").
Proof. apply (options_dispatch 2 "DeepSeek V3 (Best for Syntax)"). reflexivity. Defined.

(** ** A value that is not a text *)

(** X14: when a call returns a value that is not a text, the code block
    of the value is drawn and [st.download_button] then raises.  In a
    comparison slot the exception is caught: the slot shows the code
    block and the error message and the section goes on.  In
    single-model mode nothing catches it: the button's block ends with
    that exception after the header and the code block, the spinner is
    taken down and no download button is drawn. *)
Theorem non_text_value
    (w : World) (p : Provider) (prompt : string) (n : nat) (v : pyval) (net : Log) :
  generate w p prompt n = (Val v, net) ->
  is_text v = false ->
  (forall project_idea requirements,
     prompt = filled project_idea requirements ->
     slot w p project_idea requirements n
     = (Val tt,
        (Draw (Column (slot_column p)) (W_subheader (slot_title p))
         :: net
         ++ [ Draw (Column (slot_column p)) (W_code v "markdown");
              Draw (Column (slot_column p))
                (W_error (slot_error w p (download_error v))) ])%list))
  /\ (forall model project_idea requirements,
        selected model = p ->
        truthy project_idea = true ->
        prompt = filled project_idea (requirements_or_sentinel requirements) ->
        generate_section w model project_idea requirements n
        = (Exc (download_error v),
           (Draw Main (W_spinner_enter "Crafting your perfect prompt...")
            :: net
            ++ [ Draw Main (W_header "✅ Generated Prompt");
                 Draw Main (W_code v "markdown");
                 Draw Main W_spinner_exit ])%list)).
Proof.
  intros Hgen Htext. split.
  - intros idea req ->.
    rewrite (slot_run w p idea req n (Val v) net Hgen) by discriminate.
    unfold slot_log. now destruct v.
  - intros model idea req <- Hidea ->.
    rewrite (generate_section_run w model idea req n (Val v) net Hidea Hgen)
      by discriminate.
    now destruct v.
Qed.

Lemma non_text_value_witness :
  slot (mock_world number_for_text) Claude "a todo app" "" 0
  = (Val tt,
     [ Draw (Column 0) (W_subheader "Claude 3.5 Sonnet");
       HttpSend (request_for Claude "sk-test" (filled "a todo app" ""));
       HttpDone (Ok number_for_text);
       Draw (Column 0) (W_code (PyInt 5) "markdown");
       Draw (Column 0) (W_error "Claude Error: error") ]).
Proof.
  destruct (non_text_value (mock_world number_for_text) Claude
              (filled "a todo app" "") 0 (PyInt 5)
              [HttpSend (request_for Claude "sk-test" (filled "a todo app" ""));
               HttpDone (Ok number_for_text)] eq_refl eq_refl) as [Hslot _].
  exact (Hslot "a todo app" "" eq_refl).
Defined.

Example run_with_number_for_text :
  let i := {| in_model := "Claude 3.5 Sonnet (Best for Logic)";
              in_project_idea := "a todo app";
              in_requirements := "";
              in_button := true;
              in_compare := true |} in
  fst (run (mock_world number_for_text) i) = Exc (download_error (PyInt 5))
  /\ contacted (snd (run (mock_world number_for_text) i)) = [endpoint Claude].
Proof. vm_compute. split; reflexivity. Qed.
